(** * Format collection in the BBC and TV2 extractors

    A shallow embedding of the format-collection code of
    [youtube_dl/extractor/bbc.py] ([BBCBaseIE._extract_medias],
    [_download_media_selector], [_process_media_selector],
    [BBCCoUkIE._extract_asx_playlist], [BBCCoUkIE._download_playlist]) and of
    [youtube_dl/extractor/tv2.py] ([TV2IE._real_extract]), with the
    properties of the format list they build.

    Python dictionaries are finite maps from strings to values, exceptions
    are an explicit error result, the [urls] set, the [formats] list and the
    warnings printed by [report_warning] are threaded as state. The network
    and parsing layer of [InfoExtractor] and the helpers of
    [youtube_dl.utils] are not part of the extractor files: they are the
    fields of the [Extractor] classes below. Three parts of [InfoExtractor]
    are modelled from the specification instead: the merge of subtitle
    sets, the best-effort and the fatal mode of the manifest adapters, and
    the ranking of [_sort_formats]. *)

From Stdlib Require Import Ascii String.
From stdpp Require Import gmap strings list sorting pretty.

Open Scope string_scope.
Open Scope Z_scope.
Open Scope list_scope.

(** ** Python values *)

(** The scalar values a JSON attribute can hold: [None] (JSON null, or what
    [dict.get] returns for a missing key), booleans, integers and strings.
    Floats and nested containers do not occur as attribute values in this
    model. *)
Inductive value : Type :=
  | VNone
  | VBool (b : bool)
  | VInt (n : Z)
  | VStr (s : string).

#[global] Instance value_eq_dec : EqDecision value.
Proof. solve_decision. Defined.

(** A Python [dict] with string keys; format records are such dicts too. *)
Abbreviation dict := (gmap string value).

(** [bool(v)]: the truth value Python gives [v] in [if v], [not v], [or]. *)
Definition truthy (v : value) : bool :=
  match v with
  | VNone => false
  | VBool b => b
  | VInt n => negb (n =? 0)
  | VStr s => negb (String.eqb s "")
  end.

(** [a or b] *)
Definition py_or (a b : value) : value := if truthy a then a else b.

(** [a == b]; a boolean equals the integer 0 or 1 it stands for, and hashes
    alike, so this is also the equality of [set] membership. *)
Definition py_eq (a b : value) : bool :=
  match a, b with
  | VNone, VNone => true
  | VBool x, VBool y => Bool.eqb x y
  | VBool x, VInt n | VInt n, VBool x => n =? (if x then 1 else 0)
  | VInt n, VInt m => n =? m
  | VStr s, VStr t => String.eqb s t
  | _, _ => false
  end.

(** [v in s] for a [set] or a tuple [s] *)
Definition py_in (v : value) (s : list value) : bool := existsb (py_eq v) s.

(** [str(v)], which is what ['%s' % v] inserts *)
Definition py_str (v : value) : string :=
  match v with
  | VNone => "None"
  | VBool true => "True"
  | VBool false => "False"
  | VInt n => pretty n
  | VStr s => s
  end.

(** [d.get(k)] and [d.get(k, default)] *)
Definition get (d : dict) (k : string) : value := default VNone (d !! k).
Definition get_default (d : dict) (k : string) (dflt : value) : value :=
  default dflt (d !! k).

(** An optional integer (the result of [int_or_none]) as a Python value. *)
Definition of_int (o : option Z) : value :=
  match o with Some n => VInt n | None => VNone end.

(** [d.update(e)]: the keys of [e] override those of [d]. *)
Definition update (d e : dict) : dict := e ∪ d.

(** ** Exceptions *)

(** The exception an [ExtractorError] wraps, as far as the code looks at it:
    [e.exc_info[1]] and [e.cause]. *)
Inductive exc_value : Type :=
  | NoExc
  | HTTPError (code : Z)
  | OtherExc.

Inductive exn : Type :=
  | MediaSelectionError (id : value)
  | ExtractorError (msg : string) (exc_info1 : exc_value) (cause : exc_value)
  | TypeError
  | AttributeError
  | OtherError (name : string).

Inductive result (A : Type) : Type :=
  | Ok (a : A)
  | Raise (e : exn).
Arguments Ok {A} a.
Arguments Raise {A} e.

#[global] Instance result_ret : MRet result := λ A a, Ok a.
#[global] Instance result_bind : MBind result := λ A B k r,
  match r with
  | Ok a => k a
  | Raise e => Raise e
  end.

(** A [for] loop whose body may raise: the first exception ends the loop. *)
Fixpoint for_each {S A} (body : S → A → result S) (st : S) (l : list A)
    : result S :=
  match l with
  | [] => Ok st
  | x :: l' => st' ← body st x; for_each body st' l'
  end.

(** [a += s] for a string [s]: only a string can be extended. *)
Definition iadd_str (a : value) (s : string) : result value :=
  match a with
  | VStr t => Ok (VStr (t +:+ s))
  | _ => Raise TypeError
  end.

(** ** XML elements (what [_download_xml] returns) *)

#[warnings="-register-all"]
Inductive element : Type :=
  | Element (tag : string) (attrib : gmap string string)
            (children : list element).

Definition tag (e : element) : string :=
  match e with Element t _ _ => t end.
Definition attrib (e : element) : gmap string string :=
  match e with Element _ a _ => a end.
Definition children (e : element) : list element :=
  match e with Element _ _ c => c end.

(** [e.get(k)] *)
Definition elem_get (e : element) (k : string) : value :=
  match attrib e !! k with Some s => VStr s | None => VNone end.

(** [e.findall('./' + t)]: the children of [e] with tag [t], in document
    order. *)
Definition find_children (t : string) (e : element) : list element :=
  filter (λ c, tag c = t) (children e).

(** [asx.findall('./Entry/ref')] *)
Definition findall_Entry_ref (asx : element) : list element :=
  find_children "Entry" asx ≫= find_children "ref".


(** ** Media selection documents

    The JSON document of the media selector, with the shape the code reads:
    a [result] attribute, a [media] list, and per media its scalar
    attributes and its [connection] list ([None] where the key is missing or
    null). A connection is a dict of scalar attributes. *)

Record media : Type := Media {
  media_attrs : dict;
  media_connection : option (list dict);
}.

Record media_selection : Type := MediaSelection {
  ms_result : value;
  ms_media : option (list media);
}.

(** A subtitle set: language tag to list of subtitle descriptors. *)
Abbreviation subtitle_dict := (gmap string (list dict)).

(** Modelled from the spec: [InfoExtractor._merge_subtitles], which is not
    in the extractor files. "For each language key, concatenates onto the
    existing sequence if present, else inserts." *)
Definition _merge_subtitles (subtitles sttls : subtitle_dict) : subtitle_dict :=
  union_with (λ old new, Some (old ++ new)) subtitles sttls.

(** Modelled from the spec: the two modes of the manifest adapters
    ([InfoExtractor._extract_m3u8_formats], [_extract_mpd_formats] and
    [_extract_f4m_formats], which are not in the extractor files). "On total
    fetch/parse failure returns an empty sequence (non-fatal) when invoked
    in best-effort mode, or propagates the failure when invoked in fatal
    mode." [manifest] is what fetching and parsing the manifest gives: the
    records of its renditions, or the failure. The warning an adapter prints
    in best-effort mode is not kept. *)
Definition expand_manifest (fatal : bool) (manifest : result (list dict))
    : result (list dict) :=
  match manifest with
  | Ok fmts => Ok fmts
  | Raise e => if fatal then Raise e else Ok []
  end.

(** [x or []] for an optional list *)
Definition or_nil {A} (x : option (list A)) : list A := default [] x.

(** [_extract_medias] *)
Definition _extract_medias (media_selection : media_selection)
    : result (list media) :=
  let error := ms_result media_selection in
  if truthy error then Raise (MediaSelectionError error)
  else Ok (or_nil (ms_media media_selection)).

(** [_extract_connections] *)
Definition _extract_connections (media : media) : list dict :=
  or_nil (media_connection media).

(** The constant entries of an RTMP format record. *)
Definition rtmp_page_url : string := "http://www.bbc.co.uk".
Definition rtmp_player_url : string :=
  "http://www.bbc.co.uk/emp/releases/iplayer/revisions/617463_618125_4/617463_618125_4_emp.swf".

(** ** Playlist documents ([BBCCoUkIE._download_playlist]) *)

(** The [smpConfig] dict of a playlist version, and a version: its
    [smpConfig] ([None] unless it is a non-empty dict) and its [types] list
    of strings ([None] when the key is missing). *)
Record smp_config : Type := SmpConfig {
  smp_title : value;
  smp_summary : value;
  smp_holdingImageURL : value;
  smp_items : option (list dict);
}.

Record version : Type := Version {
  v_smpConfig : option smp_config;
  v_types : option (list string);
}.

(** What [_download_playlist] returns: the tuple [(programme_id, title,
    description, duration, formats, subtitles, thumbnail)], with the
    warnings printed on the way. *)
Record playlist_info : Type := PlaylistInfo {
  pl_programme_id : value;
  pl_title : value;
  pl_description : value;
  pl_duration : option Z;
  pl_formats : list dict;
  pl_subtitles : subtitle_dict;
  pl_thumbnail : value;
  pl_warnings : list string;
}.

(** [needle in hay] for two strings: [needle] occurs in [hay]. *)
Fixpoint str_in (needle hay : string) : bool :=
  String.prefix needle hay ||
  match hay with
  | EmptyString => false
  | String _ hay' => str_in needle hay'
  end.

(** ** [BBCBaseIE] and [BBCCoUkIE] *)

Module BBC.

(** What the extractor gets from outside [bbc.py]: its class attributes
    (overridden per extractor class), [youtube_dl.utils.int_or_none], and
    the download layer of [InfoExtractor]. The extractor is a [BBCCoUkIE],
    the class that has [_extract_asx_playlist] and [_download_playlist].

    [_download_json media_set programme_id] is the document served for the
    media selector URL of that media set and programme
    ([_MEDIA_SELECTOR_URL_TEMPL] filled in with [_hash_vpid]), or the
    exception raised on the way. [fetch_mpd], [fetch_m3u8] and [fetch_f4m]
    are the fetch and the parser behind the manifest adapters: given the
    manifest URL, the video id and the format id prefix, the records of the
    renditions of the manifest, or the failure of the fetch or of the
    parser. [_download_playlist_json] gives the [allAvailableVersions] list
    of the playlist document ([[]] when the key is missing). *)
Class Extractor : Type := {
  IE_NAME : string;
  _MEDIA_SETS : list string;
  int_or_none : value → option Z;
  _download_json : string → value → result media_selection;
  _download_xml : value → value → result element;
  fetch_mpd : value → value → value → result (list dict);
  fetch_m3u8 : value → value → value → result (list dict);
  fetch_f4m : value → value → value → result (list dict);
  extract_subtitles : media → value → result subtitle_dict;
  _download_playlist_json : value → result (list version);
  _process_legacy_playlist : value → result playlist_info;
}.

Section Code.

Context `{Extractor}.

(** [BBCCoUkIE._extract_asx_playlist] *)
Definition _extract_asx_playlist (connection : dict) (programme_id : value)
    : result (list value) :=
  asx ← _download_xml (get connection "href") programme_id;
  Ok ((λ ref, elem_get ref "href") <$> findall_Entry_ref asx).

(** Modelled from the spec: [_extract_mpd_formats], [_extract_m3u8_formats]
    and [_extract_f4m_formats] of [InfoExtractor], as far as their [fatal]
    argument goes (see [expand_manifest]). *)
Definition _extract_mpd_formats (mpd_url video_id mpd_id : value)
    (fatal : bool) : result (list dict) :=
  expand_manifest fatal (fetch_mpd mpd_url video_id mpd_id).

Definition _extract_m3u8_formats (m3u8_url video_id m3u8_id : value)
    (fatal : bool) : result (list dict) :=
  expand_manifest fatal (fetch_m3u8 m3u8_url video_id m3u8_id).

Definition _extract_f4m_formats (manifest_url video_id f4m_id : value)
    (fatal : bool) : result (list dict) :=
  expand_manifest fatal (fetch_f4m manifest_url video_id f4m_id).

(** [format_id = supplier or conn_kind or protocol] *)
Definition base_format_id (connection : dict) : value :=
  py_or (py_or (get connection "supplier") (get connection "kind"))
        (get connection "protocol").

(** The [try]/[except ExtractorError] around [_extract_m3u8_formats]. *)
Definition m3u8_formats_or_empty (href programme_id format_id : value)
    : result (list dict) :=
  match _extract_m3u8_formats href programme_id format_id false with
  | Raise (ExtractorError msg (HTTPError code) cause) =>
      if py_in (VInt code) [VInt 403; VInt 404] then Ok []
      else Raise (ExtractorError msg (HTTPError code) cause)
  | r => r
  end.

(** [if not supplier and bitrate: format_id += '-%d' % bitrate] *)
Definition suffixed_format_id (connection : dict) (bitrate : option Z)
    : result value :=
  let supplier := get connection "supplier" in
  let format_id := base_format_id connection in
  if negb (truthy supplier) && truthy (of_int bitrate)
  then iadd_str format_id ("-" +:+ py_str (of_int bitrate))
  else Ok format_id.

(** The record of the last branch before its [url] is known: [fmt] and the
    [fmt.update] for a video or an audio stream. *)
Definition media_format (kind format_id : value) (bitrate : option Z)
    (encoding : value) (width height file_size : option Z) : dict :=
  let fmt : dict :=
    {[ "format_id" := format_id; "filesize" := of_int file_size ]} in
  if py_eq kind (VStr "video")
  then update fmt {[ "width" := of_int width;
                     "height" := of_int height;
                     "tbr" := of_int bitrate;
                     "vcodec" := encoding ]}
  else update fmt {[ "abr" := of_int bitrate;
                     "acodec" := encoding;
                     "vcodec" := VStr "none" ]}.

(** The entries an RTMP connection adds to its record. *)
Definition rtmp_params (connection : dict) : dict :=
  let protocol := get connection "protocol" in
  let application := get_default connection "application" (VStr "ondemand") in
  let auth_string := get connection "authString" in
  let identifier := get connection "identifier" in
  let server := get connection "server" in
  {[ "url" := VStr (py_str protocol +:+ "://" +:+ py_str server +:+ "/"
                    +:+ py_str application +:+ "?" +:+ py_str auth_string);
     "play_path" := identifier;
     "app" := VStr (py_str application +:+ "?" +:+ py_str auth_string);
     "page_url" := VStr rtmp_page_url;
     "player_url" := VStr rtmp_player_url;
     "rtmp_live" := VBool false;
     "ext" := VStr "flv" ]}.

(** The last branch of the connection loop: a direct link or an RTMP
    stream. [None] is Python's [continue]: no record for this connection. *)
Definition plain_format (kind : value) (bitrate : option Z)
    (encoding : value) (width height file_size : option Z)
    (connection : dict) : result (option dict) :=
  let href := get connection "href" in
  let protocol := get connection "protocol" in
  format_id ← suffixed_format_id connection bitrate;
  let fmt :=
    media_format kind format_id bitrate encoding width height file_size in
  if py_in protocol [VStr "http"; VStr "https"] then
    Ok (Some (update fmt {[ "url" := href ]}))
  else if py_eq protocol (VStr "rtmp") then
    Ok (Some (update fmt (rtmp_params connection)))
  else Ok None.

(** The record of the [i]-th reference of an ASX playlist. *)
Definition asx_format (format_id : value) (i : nat) (ref : value) : dict :=
  {[ "url" := ref;
     "format_id" := VStr ("ref" +:+ pretty i +:+ "_" +:+ py_str format_id) ]}.

(** The body of [for connection in self._extract_connections(media)]; the
    state is the [formats] list and the [urls] set. *)
Definition process_connection (programme_id kind : value)
    (bitrate : option Z) (encoding : value)
    (width height file_size : option Z)
    (st : list dict * list value) (connection : dict)
    : result (list dict * list value) :=
  let '(formats, urls) := st in
  let href := get connection "href" in
  if py_in href urls then Ok (formats, urls) else
  let urls := if truthy href then urls ++ [href] else urls in
  let supplier := get connection "supplier" in
  let transfer_format := get connection "transferFormat" in
  let format_id := base_format_id connection in
  if py_eq supplier (VStr "asx") then
    refs ← _extract_asx_playlist connection programme_id;
    Ok (formats ++ imap (asx_format format_id) refs, urls)
  else if py_eq transfer_format (VStr "dash") then
    fmts ← _extract_mpd_formats href programme_id format_id false;
    Ok (formats ++ fmts, urls)
  else if py_eq transfer_format (VStr "hls") then
    fmts ← m3u8_formats_or_empty href programme_id format_id;
    Ok (formats ++ fmts, urls)
  else if py_eq transfer_format (VStr "hds") then
    fmts ← _extract_f4m_formats href programme_id format_id false;
    Ok (formats ++ fmts, urls)
  else
    fmt ← plain_format kind bitrate encoding width height file_size connection;
    match fmt with
    | Some fmt => Ok (formats ++ [fmt], urls)
    | None => Ok (formats, urls)
    end.

(** The loop over the connections of a video or audio [media]. *)
Definition process_connections (programme_id : value) (media : media)
    (st : list dict * list value) (connections : list dict)
    : result (list dict * list value) :=
  let kind := get (media_attrs media) "kind" in
  let bitrate := int_or_none (get (media_attrs media) "bitrate") in
  let encoding := get (media_attrs media) "encoding" in
  let width := int_or_none (get (media_attrs media) "width") in
  let height := int_or_none (get (media_attrs media) "height") in
  let file_size := int_or_none (get (media_attrs media) "media_file_size") in
  for_each (process_connection programme_id kind bitrate encoding
              width height file_size)
           st connections.

(** The body of [for media in self._extract_medias(media_selection)]; the
    state is [formats], [subtitles] and [urls]. *)
Definition process_media (programme_id : value)
    (st : list dict * option subtitle_dict * list value) (media : media)
    : result (list dict * option subtitle_dict * list value) :=
  let '(formats, subtitles, urls) := st in
  let kind := get (media_attrs media) "kind" in
  if py_in kind [VStr "video"; VStr "audio"] then
    '(formats, urls) ←
      process_connections programme_id media (formats, urls)
        (_extract_connections media);
    Ok (formats, subtitles, urls)
  else if py_eq kind (VStr "captions") then
    subtitles ← extract_subtitles media programme_id;
    Ok (formats, Some subtitles, urls)
  else Ok (formats, subtitles, urls).

(** [_process_media_selector] *)
Definition _process_media_selector (media_selection : media_selection)
    (programme_id : value) : result (list dict * option subtitle_dict) :=
  medias ← _extract_medias media_selection;
  '(formats, subtitles, _) ←
    for_each (process_media programme_id) ([], None, []) medias;
  Ok (formats, subtitles).

(** [_download_media_selector_url], for the URL of [media_set] *)
Definition _download_media_selector_url (media_set : string)
    (programme_id : value) : result (list dict * option subtitle_dict) :=
  media_selection ← _download_json media_set programme_id;
  _process_media_selector media_selection programme_id.

(** The message of [_raise_extractor_error] and of the warning. *)
Definition returned_error (id : value) : string :=
  IE_NAME +:+ " returned error: " +:+ py_str id.

(** [_raise_extractor_error], for a [MediaSelectionError] with this [id].
    [exc_info1] is the exception being handled at the call, which the new
    [ExtractorError] records; no [cause] is given. *)
Definition _raise_extractor_error {A} (id : value) (exc_info1 : exc_value)
    : result A :=
  Raise (ExtractorError (returned_error id) exc_info1 NoExc).

(** [e.id in ('notukerror', 'geolocation', 'selectionunavailable')] *)
Definition recoverable (id : value) : bool :=
  py_in id [VStr "notukerror"; VStr "geolocation"; VStr "selectionunavailable"].

(** [if sttls: subtitles = self._merge_subtitles(subtitles, sttls)] *)
Definition merge_if_any (subtitles : subtitle_dict)
    (sttls : option subtitle_dict) : subtitle_dict :=
  match sttls with
  | Some sttls =>
      if decide (sttls = ∅) then subtitles
      else _merge_subtitles subtitles sttls
  | None => subtitles
  end.

(** The body of [for media_set in self._MEDIA_SETS]; the state is
    [last_exception] (its [id]), [formats] and [subtitles]. *)
Definition download_media_set (programme_id : value)
    (st : option value * list dict * subtitle_dict) (media_set : string)
    : result (option value * list dict * subtitle_dict) :=
  let '(last_exception, formats, subtitles) := st in
  match _download_media_selector_url media_set programme_id with
  | Ok (fmts, sttls) =>
      Ok (last_exception, formats ++ fmts, merge_if_any subtitles sttls)
  | Raise (MediaSelectionError id) =>
      if recoverable id then Ok (Some id, formats, subtitles)
      else _raise_extractor_error id OtherExc
  | Raise e => Raise e
  end.

(** [_download_media_selector]; the third component of the result is the
    list of warnings printed with [report_warning]. *)
Definition _download_media_selector (programme_id : value)
    : result (list dict * subtitle_dict * list string) :=
  '(last_exception, formats, subtitles) ←
    for_each (download_media_set programme_id) (None, [], ∅) _MEDIA_SETS;
  match last_exception with
  | Some id =>
      if bool_decide (formats ≠ []) || bool_decide (subtitles ≠ ∅) then
        if negb (py_eq id (VStr "selectionunavailable")) then
          Ok (formats, subtitles, [returned_error id])
        else Ok (formats, subtitles, [])
      else _raise_extractor_error id NoExc
  | None => Ok (formats, subtitles, [])
  end.

(** [_get_programme_from_playlist_data] *)
Definition _get_programme_from_playlist_data (pl_data : option (list dict))
    : option dict :=
  List.find
    (λ x, py_in (get x "kind") [VStr "programme"; VStr "radioProgramme"])
    (or_nil pl_data).

(** [any('AudioDescribed' in x for x in types)] *)
Definition audio_described (types : list string) : bool :=
  existsb (str_in "AudioDescribed") types.

(** The body of [for f in version_formats]: the record is updated in
    place. *)
Definition annotate_format (types : list string) (f : dict) : dict :=
  let f := <[ "format_note" := VStr (String.concat ", " types) ]> f in
  if audio_described types
  then <[ "language_preference" := VInt (-10) ]> f
  else f.

(** The body of [for version in playlist.get('allAvailableVersions', [])];
    the state holds the local variables of [_download_playlist]. *)
Definition process_version (st : playlist_info) (version : version)
    : result playlist_info :=
  match v_smpConfig version with
  | None => Ok st
  | Some smp_config =>
      let title := smp_title smp_config in
      if negb (truthy title) then
        Ok {| pl_programme_id := pl_programme_id st;
              pl_title := title;
              pl_description := pl_description st;
              pl_duration := pl_duration st;
              pl_formats := pl_formats st;
              pl_subtitles := pl_subtitles st;
              pl_thumbnail := pl_thumbnail st;
              pl_warnings := pl_warnings st |}
      else
      let description := smp_summary smp_config in
      let thumbnail := smp_holdingImageURL smp_config in
      match _get_programme_from_playlist_data (smp_items smp_config) with
      | None =>
          Ok {| pl_programme_id := pl_programme_id st;
                pl_title := title;
                pl_description := description;
                pl_duration := pl_duration st;
                pl_formats := pl_formats st;
                pl_subtitles := pl_subtitles st;
                pl_thumbnail := thumbnail;
                pl_warnings := pl_warnings st |}
      | Some item =>
          let programme_id := get item "vpid" in
          let duration := int_or_none (get item "duration") in
          '(version_formats, version_subtitles, warnings) ←
            _download_media_selector programme_id;
          let types := default ["unknown"] (v_types version) in
          let version_formats := annotate_format types <$> version_formats in
          Ok {| pl_programme_id := programme_id;
                pl_title := title;
                pl_description := description;
                pl_duration := duration;
                pl_formats := pl_formats st ++ version_formats;
                pl_subtitles :=
                  merge_if_any (pl_subtitles st) (Some version_subtitles);
                pl_thumbnail := thumbnail;
                pl_warnings := pl_warnings st ++ warnings |}
      end
  end.

Definition playlist_init : playlist_info :=
  {| pl_programme_id := VNone; pl_title := VNone; pl_description := VNone;
     pl_duration := None; pl_formats := []; pl_subtitles := ∅;
     pl_thumbnail := VNone; pl_warnings := [] |}.

(** [_download_playlist] *)
Definition _download_playlist (playlist_id : value) : result playlist_info :=
  match (versions ← _download_playlist_json playlist_id;
         for_each process_version playlist_init versions) with
  | Ok st =>
      if bool_decide (pl_formats st ≠ []) then Ok st
      else _process_legacy_playlist playlist_id
  | Raise (ExtractorError msg exc_info1 (HTTPError code)) =>
      if code =? 404 then _process_legacy_playlist playlist_id
      else Raise (ExtractorError msg exc_info1 (HTTPError code))
  | Raise e => Raise e
  end.

End Code.

End BBC.

(** ** [TV2IE._real_extract]: the format list *)

(** The [playback] dict of a playback document: its [streams] ([None] unless
    it is a list) and its [drmProtected] attribute. *)
Record playback : Type := Playback {
  pb_streams : option (list dict);
  pb_drmProtected : value;
}.

(** [s.lower()] and [s.endswith(suffix)] *)
Definition ascii_lower (c : ascii) : ascii :=
  let n := nat_of_ascii c in
  if (65 <=? n)%nat && (n <=? 90)%nat then ascii_of_nat (n + 32) else c.

Fixpoint lower (s : string) : string :=
  match s with
  | EmptyString => EmptyString
  | String c s' => String (ascii_lower c) (lower s')
  end.

Definition endswith (s suffix : string) : bool :=
  let n := String.length s in
  let m := String.length suffix in
  (m <=? n)%nat && String.eqb (String.substring (n - m) m s) suffix.

Module TV2.

(** What the extractor gets from outside [tv2.py]: [int_or_none],
    [dict_get] and [determine_ext] of [youtube_dl.utils], the URL check of
    [InfoExtractor], and the fetch and the parser behind its manifest
    adapters: given the manifest URL, the video id, for [fetch_m3u8] the
    entry protocol, and the format id prefix, the records of the renditions
    of the manifest, or the failure of the fetch or of the parser. *)
Class Extractor : Type := {
  int_or_none : value → option Z;
  dict_get : dict → list string → value;
  determine_ext : value → result string;
  _is_valid_url : value → value → string → result bool;
  fetch_f4m : value → value → string → result (list dict);
  fetch_m3u8 : value → value → string → string → result (list dict);
  fetch_mpd : value → value → string → result (list dict);
}.

Section Code.

Context `{Extractor}.

(** The playback documents are the input of the pass:
    [playback_json protocol] is the [playback] dict that the [try]
    statement around [_download_playback_json] yields for the video, or the
    exception the statement ends with (every error it handles is raised
    again, as it is or translated). *)
Variable playback_json : string → result playback.

Definition _PROTOCOLS : list string := ["HLS"; "DASH"].

(** Modelled from the spec: [_extract_f4m_formats], [_extract_m3u8_formats]
    and [_extract_mpd_formats] of [InfoExtractor], as far as their [fatal]
    argument goes (see [expand_manifest]). *)
Definition _extract_f4m_formats (manifest_url video_id : value)
    (f4m_id : string) (fatal : bool) : result (list dict) :=
  expand_manifest fatal (fetch_f4m manifest_url video_id f4m_id).

Definition _extract_m3u8_formats (m3u8_url video_id : value)
    (entry_protocol m3u8_id : string) (fatal : bool) : result (list dict) :=
  expand_manifest fatal (fetch_m3u8 m3u8_url video_id entry_protocol m3u8_id).

Definition _extract_mpd_formats (mpd_url video_id : value) (mpd_id : string)
    (fatal : bool) : result (list dict) :=
  expand_manifest fatal (fetch_mpd mpd_url video_id mpd_id).

(** [_get_data_items(data) or []] *)
Definition _get_data_items (data : playback) : list dict :=
  or_nil (pb_streams data).

(** ['%s-%s' % (protocol.lower(), dict_get(item, ('type', 'mediaFormat')))] *)
Definition item_format_id (protocol : string) (item : dict) : string :=
  lower protocol +:+ "-" +:+ py_str (dict_get item ["type"; "mediaFormat"]).

(** [ext == 'ism' or video_url.endswith('.ism/Manifest')] *)
Definition is_ism (ext : string) (video_url : value) : result bool :=
  if String.eqb ext "ism" then Ok true
  else match video_url with
       | VStr s => Ok (endswith s ".ism/Manifest")
       | _ => Raise AttributeError
       end.

(** The body of [for item in items]; the state is [formats] and
    [format_urls]. *)
Definition process_item (video_id : value) (is_live : bool)
    (protocol : string) (data : playback)
    (st : list dict * list value) (item : dict)
    : result (list dict * list value) :=
  let '(formats, format_urls) := st in
  let video_url := get item "url" in
  if negb (truthy video_url) || py_in video_url format_urls
  then Ok (formats, format_urls) else
  let format_id := item_format_id protocol item in
  valid ← _is_valid_url video_url video_id format_id;
  if negb valid then Ok (formats, format_urls) else
  let format_urls := format_urls ++ [video_url] in
  ext ← determine_ext video_url;
  if String.eqb ext "f4m" then
    fmts ← _extract_f4m_formats video_url video_id format_id false;
    Ok (formats ++ fmts, format_urls)
  else if String.eqb ext "m3u8" then
    if negb (truthy (pb_drmProtected data)) then
      fmts ← _extract_m3u8_formats video_url video_id
               (if is_live then "m3u8" else "m3u8_native") format_id false;
      Ok (formats ++ fmts, format_urls)
    else Ok (formats, format_urls)
  else if String.eqb ext "mpd" then
    fmts ← _extract_mpd_formats video_url video_id format_id false;
    Ok (formats ++ fmts, format_urls)
  else
    ism ← is_ism ext video_url;
    if ism : bool then Ok (formats, format_urls)
    else
      Ok (formats ++
            [ {[ "url" := video_url;
                 "format_id" := VStr format_id;
                 "tbr" := of_int (int_or_none (get item "bitrate"));
                 "filesize" := of_int (int_or_none (get item "fileSize")) ]} ],
          format_urls).

(** The body of [for protocol in self._PROTOCOLS]; the state also keeps the
    last [data]. *)
Definition process_protocol (video_id : value) (is_live : bool)
    (st : list dict * list value * option playback) (protocol : string)
    : result (list dict * list value * option playback) :=
  let '(formats, format_urls, _) := st in
  data ← playback_json protocol;
  '(formats, format_urls) ←
    for_each (process_item video_id is_live protocol data)
             (formats, format_urls) (_get_data_items data);
  Ok (formats, format_urls, Some data).

(** The [formats] list of [_real_extract], as it is handed to
    [_sort_formats]. *)
Definition real_extract_formats (video_id : value) (is_live : bool)
    : result (list dict) :=
  '(formats, _, data) ←
    for_each (process_protocol video_id is_live) ([], [], None) _PROTOCOLS;
  if bool_decide (formats = []) &&
     from_option (λ d, truthy (pb_drmProtected d)) false data
  then Raise (ExtractorError "This video is DRM protected." NoExc NoExc)
  else Ok formats.

End Code.

End TV2.

(** * The vocabulary of the properties *)

Section bbc_vocabulary.

Import BBC.
Context `{Extractor}.

(** A JSON attribute that is a string, null or missing. *)
Definition str_or_none (v : value) : bool :=
  match v with
  | VNone | VStr _ => true
  | _ => false
  end.

(** [urls] after a connection: the [href] is added when it is new and not
    empty. *)
Definition urls_after (urls : list value) (connection : dict) : list value :=
  let href := get connection "href" in
  if py_in href urls then urls
  else if truthy href then urls ++ [href] else urls.

(** The connection is new and goes to the last branch of the loop: it is
    no ASX playlist and no DASH, HLS or HDS manifest. *)
Definition plain_branch (urls : list value) (connection : dict) : bool :=
  negb (py_in (get connection "href") urls) &&
  negb (py_eq (get connection "supplier") (VStr "asx")) &&
  negb (py_in (get connection "transferFormat")
              [VStr "dash"; VStr "hls"; VStr "hds"]).

(** An [ExtractorError] made while an [HTTPError] with code 403 or 404 was
    handled: the error the [except] clause of the HLS branch swallows. *)
Definition forbidden_or_not_found (e : exn) : bool :=
  match e with
  | ExtractorError _ (HTTPError code) _ => (code =? 403) || (code =? 404)
  | _ => false
  end.

(** What the request for the manifest of a DASH or HLS connection gives. *)
Definition fetched_manifest (programme_id : value) (connection : dict)
    : result (list dict) :=
  let href := get connection "href" in
  let format_id := base_format_id connection in
  if py_eq (get connection "transferFormat") (VStr "dash")
  then fetch_mpd href programme_id format_id
  else fetch_m3u8 href programme_id format_id.

(** The connections that are new when they are met, [seen] being the
    [urls] set before the first of them. *)
Fixpoint new_connections (seen : list value) (connections : list dict)
    : list dict :=
  match connections with
  | [] => []
  | c :: cs =>
      if py_in (get c "href") seen then new_connections seen cs
      else c :: new_connections (urls_after seen c) cs
  end.

Definition is_video_or_audio (m : media) : bool :=
  py_in (get (media_attrs m) "kind") [VStr "video"; VStr "audio"].

(** The connections a pass goes through, in order. *)
Definition visited_connections (medias : list media) : list dict :=
  m ← medias;
  if is_video_or_audio m then _extract_connections m else [].

(** The media list without the connections of video and audio media whose
    [href] an earlier connection of the pass has put in [urls]. *)
Fixpoint first_seen_medias (seen : list value) (medias : list media)
    : list media :=
  match medias with
  | [] => []
  | m :: ms =>
      if is_video_or_audio m then
        Media (media_attrs m)
              (Some (new_connections seen (_extract_connections m)))
          :: first_seen_medias (foldl urls_after seen (_extract_connections m)) ms
      else m :: first_seen_medias seen ms
  end.

Definition first_seen (selection : media_selection) : media_selection :=
  MediaSelection (ms_result selection)
                 (first_seen_medias [] <$> ms_media selection).

(** No connection has the non-empty [href] of an earlier one. *)
Definition distinct_hrefs (connections : list dict) : Prop :=
  ∀ (i j : nat) (a b : dict),
    (i < j)%nat → connections !! i = Some a → connections !! j = Some b →
    truthy (get a "href") = true →
    py_eq (get b "href") (get a "href") = false.

(** What the media sets yield for a programme: every error of a media set
    is a [MediaSelectionError] with one of the three recoverable ids; the
    formats and the subtitles of the sets that answer; the id of the last
    error. *)
Definition only_recoverable (programme_id : value) : bool :=
  forallb (λ media_set,
             match _download_media_selector_url media_set programme_id with
             | Ok _ => true
             | Raise (MediaSelectionError id) => recoverable id
             | Raise _ => false
             end) _MEDIA_SETS.

Definition yielded_formats_of (programme_id : value) (media_sets : list string)
    : list dict :=
  media_set ← media_sets;
  match _download_media_selector_url media_set programme_id with
  | Ok (fmts, _) => fmts
  | Raise _ => []
  end.

Definition yielded_subtitles_of (programme_id : value)
    (subtitles : subtitle_dict) (media_sets : list string) : subtitle_dict :=
  foldl (λ subtitles media_set,
           match _download_media_selector_url media_set programme_id with
           | Ok (_, sttls) => merge_if_any subtitles sttls
           | Raise _ => subtitles
           end) subtitles media_sets.

Definition last_failure_of (programme_id : value)
    (last_exception : option value) (media_sets : list string) : option value :=
  foldl (λ last_exception media_set,
           match _download_media_selector_url media_set programme_id with
           | Raise (MediaSelectionError id) => Some id
           | _ => last_exception
           end) last_exception media_sets.

Definition yielded_formats (programme_id : value) : list dict :=
  yielded_formats_of programme_id _MEDIA_SETS.
Definition yielded_subtitles (programme_id : value) : subtitle_dict :=
  yielded_subtitles_of programme_id ∅ _MEDIA_SETS.
Definition last_failure (programme_id : value) : option value :=
  last_failure_of programme_id None _MEDIA_SETS.

End bbc_vocabulary.

Section tv2_vocabulary.

Import TV2.
Context `{Extractor}.

(** [format_urls] after an item: its [url] is added when it is new, not
    empty and passes the URL check. *)
Definition format_urls_after (video_id : value) (protocol : string)
    (format_urls : list value) (item : dict) : list value :=
  let video_url := get item "url" in
  if negb (truthy video_url) || py_in video_url format_urls then format_urls
  else match _is_valid_url video_url video_id (item_format_id protocol item) with
       | Ok true => format_urls ++ [video_url]
       | _ => format_urls
       end.

(** The items without those whose non-empty [url] is in [format_urls] when
    they are met, [seen] being [format_urls] before the first of them. *)
Fixpoint new_items (video_id : value) (protocol : string)
    (seen : list value) (items : list dict) : list dict :=
  match items with
  | [] => []
  | item :: items' =>
      if truthy (get item "url") && py_in (get item "url") seen
      then new_items video_id protocol seen items'
      else item :: new_items video_id protocol
                     (format_urls_after video_id protocol seen item) items'
  end.

(** The item passes the URL check: its [url] is not empty and
    [_is_valid_url] says yes. *)
Definition accepted (video_id : value) (protocol : string) (item : dict)
    : bool :=
  truthy (get item "url") &&
  match _is_valid_url (get item "url") video_id (item_format_id protocol item) with
  | Ok true => true
  | _ => false
  end.

(** No item has the [url] of an earlier item that passes the URL check. *)
Definition distinct_urls (video_id : value) (protocol : string)
    (items : list dict) : Prop :=
  ∀ (i j : nat) (a b : dict),
    (i < j)%nat → items !! i = Some a → items !! j = Some b →
    accepted video_id protocol a = true →
    py_eq (get b "url") (get a "url") = false.

(** A playback document without the items seen before. *)
Definition without_seen (video_id : value) (protocol : string)
    (seen : list value) (data : playback) : playback :=
  Playback (Some (new_items video_id protocol seen (_get_data_items data)))
           (pb_drmProtected data).

Definition items_of (r : result playback) : list dict :=
  match r with
  | Ok data => _get_data_items data
  | Raise _ => []
  end.

(** [format_urls] when the loop reaches [protocol]. *)
Fixpoint seen_upto (playback_json : string → result playback)
    (video_id : value) (protocol : string) (seen : list value)
    (protocols : list string) : list value :=
  match protocols with
  | [] => seen
  | q :: qs =>
      if String.eqb q protocol then seen
      else seen_upto playback_json video_id protocol
             (foldl (format_urls_after video_id q) seen
                    (items_of (playback_json q))) qs
  end.

(** The playback documents without the items whose [url] an earlier item of
    the pass has put in [format_urls]. *)
Definition first_seen_playback (playback_json : string → result playback)
    (video_id : value) (protocol : string) : result playback :=
  data ← playback_json protocol;
  Ok (without_seen video_id protocol
        (seen_upto playback_json video_id protocol [] _PROTOCOLS) data).

End tv2_vocabulary.

(** * [BBCCoUkIE._real_extract]: the title and the version of an episode *)

(** [make_title] *)
Definition make_title (title title2 : value) : result value :=
  title ←
    (if truthy title && truthy title2
     then match title2 with
          | VStr t2 => iadd_str title (" - " +:+ t2)
          | _ => Raise TypeError
          end
     else Ok title);
  Ok (py_or (py_or title title2) VNone).

(** [title2 = ' - '.join(([title2] if title2 else []) + ['Audio Described'])] *)
Definition audio_described_title2 (title2 : value) : result value :=
  if truthy title2 then
    match title2 with
    | VStr t2 => Ok (VStr (t2 +:+ " - " +:+ "Audio Described"))
    | _ => Raise TypeError
    end
  else Ok (VStr "Audio Described").

(** The title of an episode page whose episode is the one of the page
    (lines 732-735 and 741 of [_real_extract]):
    [get_duple(episode, ('title', 'subtitle'))], the [Audio Described] mark
    when [currentVersion] is [ad], and [make_title]. *)
Definition episode_title (episode : dict) : result value :=
  let title := get episode "title" in
  let title2 := get episode "subtitle" in
  title2 ←
    (if py_eq (get episode "currentVersion") (VStr "ad")
     then audio_described_title2 title2
     else Ok title2);
  make_title title title2.






(** * More vocabulary *)

Section bbc_more_vocabulary.

Import BBC.
Context `{Extractor}.

(** The connection is an ASX playlist or a DASH, HLS or HDS manifest. *)
Definition expanded_connection (connection : dict) : bool :=
  py_eq (get connection "supplier") (VStr "asx") ||
  py_in (get connection "transferFormat") [VStr "dash"; VStr "hls"; VStr "hds"].

Definition is_captions (m : media) : bool :=
  negb (is_video_or_audio m) &&
  py_eq (get (media_attrs m) "kind") (VStr "captions").

(** The last captions media of a document, if any. *)
Fixpoint last_captions (medias : list media) : option media :=
  match medias with
  | [] => None
  | m :: ms =>
      match last_captions ms with
      | Some m' => Some m'
      | None => if is_captions m then Some m else None
      end
  end.

(** An RTMP connection that has no [href], is no ASX playlist and no
    manifest, and whose kind is a string or missing. *)
Definition rtmp_without_href (connection : dict) : bool :=
  negb (truthy (get connection "href")) &&
  negb (expanded_connection connection) &&
  py_eq (get connection "protocol") (VStr "rtmp") &&
  str_or_none (get connection "kind").

(** The warning [_download_media_selector] prints when formats or subtitles
    were found: none without a failure and none for
    [selectionunavailable]. *)
Definition warnings_for (last_exception : option value) : list string :=
  match last_exception with
  | Some id =>
      if py_eq id (VStr "selectionunavailable") then []
      else [returned_error id]
  | None => []
  end.

(** The media set answers, or fails with an error that another media set
    may make up for. *)
Definition answers_or_recoverable (programme_id : value) (media_set : string)
    : bool :=
  match _download_media_selector_url media_set programme_id with
  | Ok _ => true
  | Raise (MediaSelectionError id) => recoverable id
  | Raise _ => false
  end.

(** What a failing media set makes [_download_media_selector] raise. *)
Definition raised_for (e : exn) : exn :=
  match e with
  | MediaSelectionError id =>
      ExtractorError (returned_error id) OtherExc NoExc
  | _ => e
  end.

(** The version goes through the media selector: it has an [smpConfig]
    with a title and a programme item. *)
Definition version_item (version : version) : option dict :=
  cfg ← v_smpConfig version;
  if truthy (smp_title cfg)
  then _get_programme_from_playlist_data (smp_items cfg)
  else None.

(** The records of a version, as they go into the format list. *)
Definition version_formats (version : version) : list dict :=
  match version_item version with
  | Some item =>
      match _download_media_selector (get item "vpid") with
      | Ok (formats, _, _) =>
          annotate_format (default ["unknown"] (v_types version)) <$> formats
      | Raise _ => []
      end
  | None => []
  end.

End bbc_more_vocabulary.

Section tv2_more_vocabulary.

Import TV2.
Context `{Extractor}.

(** An item that has no [url], or whose [url] can be checked and names an
    [m3u8] manifest. *)
Definition m3u8_item (video_id : value) (protocol : string) (item : dict)
    : bool :=
  negb (truthy (get item "url")) ||
  match _is_valid_url (get item "url") video_id (item_format_id protocol item),
        determine_ext (get item "url") with
  | Ok _, Ok ext => String.eqb ext "m3u8"
  | _, _ => false
  end.

(** An item that has no [url], or whose [url] fails the URL check. *)
Definition rejected_item (video_id : value) (protocol : string) (item : dict)
    : bool :=
  negb (truthy (get item "url")) ||
  match _is_valid_url (get item "url") video_id (item_format_id protocol item) with
  | Ok valid => negb valid
  | Raise _ => false
  end.

End tv2_more_vocabulary.

(** * The ranking of the format list

    [BBCCoUkIE._real_extract] hands the format list to
    [InfoExtractor._sort_formats], which is not in the extractor files. *)

(** An attribute of a record that is an integer, if the record has it. *)
Definition int_attr (f : dict) (k : string) : option Z :=
  match f !! k with
  | Some (VInt n) => Some n
  | _ => None
  end.

(** Modelled from the spec: the first ranking key of [_sort_formats].
    "Explicit quality rank if present (higher is better); records without
    it are treated as rank 0 for this tier, not excluded." *)
Definition quality_rank (f : dict) : Z := default 0 (int_attr f "quality").

(** Modelled from the spec: the second ranking key of [_sort_formats], the
    language preference. A record flagged as an alternate-language
    rendition has "a strongly negative weight (e.g. -10)", which lines
    572-574 of [bbc.py] set as [language_preference]; a record that is not
    flagged has no weight. *)
Definition language_weight (f : dict) : Z :=
  default 0 (int_attr f "language_preference").

(** Modelled from the spec: the numeric comparison of [_sort_formats],
    "with unknown values treated as the lowest possible value". *)
Definition unknown_lowest (a b : option Z) : bool :=
  match a, b with
  | None, Some _ => true
  | Some x, Some y => x <? y
  | _, _ => false
  end.

(** Modelled from the spec: the comparison of two ranking keys in
    [_sort_formats], "most to least significant". *)
Fixpoint key_lt (a b : list (option Z)) : bool :=
  match a, b with
  | x :: a', y :: b' =>
      unknown_lowest x y || (bool_decide (x = y) && key_lt a' b')
  | _, _ => false
  end.

Section ranking.

(** The "fixed ascending preference order among known
    containers/protocols", which the spec does not list. *)
Variable container_preference : dict → Z.

(** Modelled from the spec: the ranking key of [_sort_formats]. "Ranking
    key, most to least significant": the quality rank, the language
    preference, the "protocol/container preference", then "resolution
    (height, then width), then bitrate, then filesize". *)
Definition ranking_key (f : dict) : list (option Z) :=
  [ Some (quality_rank f); Some (language_weight f);
    Some (container_preference f);
    int_attr f "height"; int_attr f "width"; int_attr f "tbr";
    int_attr f "filesize" ].

(** Modelled from the spec: the order of [_sort_formats]; [f] sorts below
    (before) [g], the last record of the list being the best. *)
Definition ranks_below (f g : dict) : bool :=
  key_lt (ranking_key f) (ranking_key g).

(** Modelled from the spec: [InfoExtractor._sort_formats], a stable sort by
    the ranking key. "Records discovered earlier sort earlier when all prior
    keys are equal." *)
Fixpoint rank_insert (f : dict) (ranked : list dict) : list dict :=
  match ranked with
  | [] => [f]
  | g :: ranked' =>
      if ranks_below g f then g :: rank_insert f ranked'
      else f :: g :: ranked'
  end.

Definition _sort_formats (formats : list dict) : list dict :=
  foldr rank_insert [] formats.

End ranking.

Section bbc_ranked.

Import BBC.
Context `{Extractor}.

(** The format list of [BBCCoUkIE._real_extract] for a page that names no
    programme (lines 782-786): the formats [_download_playlist] returns for
    the id of the page, ranked by [_sort_formats]. *)
Definition ranked_playlist_formats (container_preference : dict → Z)
    (group_id : value) : result (list dict) :=
  info ← _download_playlist group_id;
  Ok (_sort_formats container_preference (pl_formats info)).

End bbc_ranked.

(** * Concrete runs *)

Module Runs.

(** Stand-ins for the helpers and the download layer in the runs below.
    [int_or_none] is given on the arguments it meets there: integers and
    [None]. Unless a run says otherwise no manifest has formats, no
    document has subtitles, and no document can be fetched. *)
Definition int_or_none (v : value) : option Z :=
  match v with VInt n => Some n | _ => None end.
Definition no_formats (url video_id format_id : value) : result (list dict) :=
  Ok [].
Definition unable_to_download {A} (what : string) : result A :=
  Raise (ExtractorError ("Unable to download " +:+ what) OtherExc OtherExc).
Definition no_subtitles (m : media) (video_id : value) : result subtitle_dict :=
  Ok ∅.

(** A [BBCCoUkIE] over these stand-ins, given its media selector
    documents, its XML documents and its DASH and HLS manifests. *)
Definition bbc_co_uk
    (_download_json : string → value → result media_selection)
    (_download_xml : value → value → result element)
    (fetch_mpd fetch_m3u8 : value → value → value → result (list dict))
    : BBC.Extractor :=
  {| BBC.IE_NAME := "bbc.co.uk";
     BBC._MEDIA_SETS := ["iptv-all"; "pc"];
     BBC.int_or_none := int_or_none;
     BBC._download_json := _download_json;
     BBC._download_xml := _download_xml;
     BBC.fetch_mpd := fetch_mpd;
     BBC.fetch_m3u8 := fetch_m3u8;
     BBC.fetch_f4m := no_formats;
     BBC.extract_subtitles := no_subtitles;
     BBC._download_playlist_json := λ _, unable_to_download "JSON metadata";
     BBC._process_legacy_playlist := λ _, unable_to_download "XML" |}.

Definition no_json (media_set : string) (video_id : value)
    : result media_selection :=
  unable_to_download "JSON metadata".
Definition no_xml (url video_id : value) : result element :=
  unable_to_download "XML".

Definition offline : BBC.Extractor :=
  bbc_co_uk no_json no_xml no_formats no_formats.

(** An RTMP connection to a given server, application and token. *)
Definition rtmp_connection (supplier : string) : dict :=
  {[ "protocol" := VStr "rtmp"; "supplier" := VStr supplier;
     "server" := VStr "host"; "application" := VStr "ondemand";
     "authString" := VStr "token123";
     "identifier" := VStr "path/to/stream" ]}.

(** Two such connections of one video, from two suppliers. *)
Definition two_suppliers : media_selection :=
  MediaSelection VNone
    (Some [Media {[ "kind" := VStr "video" ]}
                 (Some [rtmp_connection "akamai"; rtmp_connection "limelight"])]).

Definition rtmp_format (supplier : string) : dict :=
  {[ "format_id" := VStr supplier; "filesize" := VNone;
     "width" := VNone; "height" := VNone; "tbr" := VNone; "vcodec" := VNone;
     "url" := VStr "rtmp://host/ondemand?token123";
     "play_path" := VStr "path/to/stream";
     "app" := VStr "ondemand?token123";
     "page_url" := VStr rtmp_page_url;
     "player_url" := VStr rtmp_player_url;
     "rtmp_live" := VBool false;
     "ext" := VStr "flv" ]}.

(** An RTMP connection that names no application and no supplier. *)
Definition rtmp_without_application : dict :=
  {[ "protocol" := VStr "rtmp"; "server" := VStr "host";
     "authString" := VStr "token123";
     "identifier" := VStr "path/to/stream" ]}.

(** A video with a bitrate and a connection without any attribute. *)
Definition bare_connection : media_selection :=
  MediaSelection VNone
    (Some [Media {[ "kind" := VStr "video"; "bitrate" := VInt 320 ]}
                 (Some [∅])]).

(** An ASX connection and the playlist behind it. *)
Definition asx_connection : dict :=
  {[ "supplier" := VStr "asx"; "href" := VStr "http://bbc/asx" ]}.

Definition asx_playlist : element :=
  Element "ASX" ∅
    [ Element "Entry" ∅ [ Element "ref" {[ "href" := "mms://a" ]} [] ];
      Element "Entry" ∅ [ Element "ref" {[ "href" := "mms://b" ]} [] ] ].

Definition with_asx : BBC.Extractor :=
  bbc_co_uk no_json (λ _ _, Ok asx_playlist) no_formats no_formats.

(** A DASH and an HLS connection, and two failures of the request for a
    manifest: the manifest is not found, the server fails. *)
Definition dash_connection : dict :=
  {[ "transferFormat" := VStr "dash"; "protocol" := VStr "https";
     "href" := VStr "https://bbc/manifest.mpd" ]}.

Definition hls_connection : dict :=
  {[ "transferFormat" := VStr "hls"; "protocol" := VStr "https";
     "supplier" := VStr "mf_akamai";
     "href" := VStr "https://bbc/master.m3u8" ]}.

Definition manifest_not_found : exn :=
  ExtractorError "Failed to download manifest: HTTP Error 404: Not Found"
    (HTTPError 404) (HTTPError 404).

Definition server_error : exn :=
  ExtractorError
    "Failed to download manifest: HTTP Error 500: Internal Server Error"
    (HTTPError 500) (HTTPError 500).

(** A [BBCCoUkIE] for which the request for any DASH or HLS manifest ends
    with [e]. *)
Definition no_manifest (e : exn) : BBC.Extractor :=
  bbc_co_uk no_json no_xml (λ _ _ _, Raise e) (λ _ _ _, Raise e).

(** Two redundant media sets with one HLS connection each: the manifest of
    [iptv-all] is not found, the manifest of [pc] has two variants. *)
Definition hls_video (href : string) : media_selection :=
  MediaSelection VNone
    (Some [Media {[ "kind" := VStr "video" ]}
                 (Some [ {[ "transferFormat" := VStr "hls";
                            "protocol" := VStr "https";
                            "supplier" := VStr "mf_akamai";
                            "href" := VStr href ]} ])]).

Definition variant (url : value) (format_id : value) (height : Z) : dict :=
  {[ "url" := url;
     "format_id" := VStr (py_str format_id +:+ "-" +:+ pretty height);
     "height" := VInt height; "ext" := VStr "mp4";
     "protocol" := VStr "m3u8_native" ]}.

Definition first_manifest_not_found : BBC.Extractor :=
  bbc_co_uk (λ media_set _,
               if String.eqb media_set "iptv-all"
               then Ok (hls_video "https://a.bbc/master.m3u8")
               else Ok (hls_video "https://b.bbc/master.m3u8"))
            no_xml no_formats
            (λ url _ format_id,
               if bool_decide (url = VStr "https://a.bbc/master.m3u8")
               then Raise manifest_not_found
               else Ok [variant url format_id 360; variant url format_id 720]).

(** An HLS connection without supplier. Its manifest is a media playlist,
    which gives one record, named by the format id it is expanded with. *)
Definition hls_without_supplier : dict :=
  {[ "transferFormat" := VStr "hls"; "protocol" := VStr "https";
     "href" := VStr "https://bbc/audio.m3u8" ]}.

Definition media_playlist_format (url format_id : value) : dict :=
  {[ "url" := url; "format_id" := format_id; "ext" := VStr "mp4";
     "protocol" := VStr "m3u8_native" ]}.

Definition media_playlists : BBC.Extractor :=
  bbc_co_uk no_json no_xml no_formats
    (λ url _ format_id, Ok [media_playlist_format url format_id]).

(** A direct link without supplier, the document of a video that has it,
    and its record. *)
Definition http_connection : dict :=
  {[ "protocol" := VStr "http"; "kind" := VStr "akamai";
     "href" := VStr "http://bbc/clip.mp4" ]}.

Definition one_video : media_selection :=
  MediaSelection VNone
    (Some [Media {[ "kind" := VStr "video" ]} (Some [http_connection])]).

Definition http_format : dict :=
  {[ "format_id" := VStr "akamai"; "filesize" := VNone;
     "width" := VNone; "height" := VNone; "tbr" := VNone; "vcodec" := VNone;
     "url" := VStr "http://bbc/clip.mp4" ]}.

(** A video with the same direct link twice, under two names. *)
Definition http_connection_again : dict :=
  {[ "protocol" := VStr "http"; "kind" := VStr "limelight";
     "href" := VStr "http://bbc/clip.mp4" ]}.

Definition same_href_twice : media_selection :=
  MediaSelection VNone
    (Some [Media {[ "kind" := VStr "video" ]}
                 (Some [http_connection; http_connection_again])]).

(** The document of a media set that answers with an error. *)
Definition selection_error (id : string) : media_selection :=
  MediaSelection (VStr id) None.

(** [iptv-all] fails with [geolocation], [pc] has the video. *)
Definition iptv_geolocation : BBC.Extractor :=
  bbc_co_uk (λ media_set _,
               if String.eqb media_set "iptv-all"
               then Ok (selection_error "geolocation") else Ok one_video)
            no_xml no_formats no_formats.

(** [iptv-all] has the video, [pc] fails with an error that is none of
    [notukerror], [geolocation], [selectionunavailable]. *)
Definition pc_unauthorized : BBC.Extractor :=
  bbc_co_uk (λ media_set _,
               if String.eqb media_set "iptv-all"
               then Ok one_video else Ok (selection_error "authorization"))
            no_xml no_formats no_formats.

(** Both media sets serve the same document. *)
Definition same_document : BBC.Extractor :=
  bbc_co_uk (λ _ _, Ok one_video) no_xml no_formats no_formats.

(** Three RTMP connections without [href], two of them alike. *)
Definition rtmp_stream (supplier : string) : dict :=
  {[ "protocol" := VStr "rtmp"; "kind" := VStr supplier;
     "server" := VStr "host"; "authString" := VStr "token123";
     "identifier" := VStr "path/to/stream" ]}.

Definition three_streams : list dict :=
  [rtmp_stream "akamai"; rtmp_stream "akamai"; rtmp_stream "limelight"].

(** A document with a thumbnail media between a video and its captions. *)
Definition thumbnail_media : media :=
  Media {[ "kind" := VStr "thumbnail" ]} None.

Definition captions_media : media :=
  Media {[ "kind" := VStr "captions" ]}
        (Some [ {[ "href" := VStr "http://bbc/captions.xml" ]} ]).

(** A [TV2IE] whose URL check passes everything but [http://tv2/gone.mp4],
    whose manifests have no formats, and whose extensions are read off the
    end of the URL. [dict_get] gives the first of the keys that has a value
    Python counts as true. *)
Definition dict_get (d : dict) (keys : list string) : value :=
  default VNone (List.find truthy ((λ k, get d k) <$> keys)).

Definition determine_ext (url : value) : result string :=
  match url with
  | VStr s =>
      Ok (if endswith s ".m3u8" then "m3u8"
          else if endswith s ".mpd" then "mpd"
          else if endswith s ".mp4" then "mp4"
          else "unknown_video")
  | _ => Raise TypeError
  end.

Definition tv2 : TV2.Extractor :=
  {| TV2.int_or_none := int_or_none;
     TV2.dict_get := dict_get;
     TV2.determine_ext := determine_ext;
     TV2._is_valid_url := λ url _ _,
       Ok (negb (bool_decide (url = VStr "http://tv2/gone.mp4")));
     TV2.fetch_f4m := λ _ _ _, Ok [];
     TV2.fetch_m3u8 := λ _ _ _ _, Ok [];
     TV2.fetch_mpd := λ _ _ _, Ok [] |}.

Definition mp4_item : dict :=
  {[ "url" := VStr "http://tv2/clip.mp4"; "type" := VStr "progressive" ]}.
Definition gone_item : dict :=
  {[ "url" := VStr "http://tv2/gone.mp4"; "type" := VStr "progressive" ]}.
Definition m3u8_manifest_item : dict :=
  {[ "url" := VStr "http://tv2/master.m3u8"; "type" := VStr "hls" ]}.

(** The HLS playback has a direct link, the DASH playback request fails. *)
Definition dash_request_fails (protocol : string) : result playback :=
  if String.eqb protocol "HLS"
  then Ok (Playback (Some [mp4_item]) VNone)
  else unable_to_download "JSON metadata".

(** Both playbacks are DRM protected and list a manifest. *)
Definition drm_playbacks (protocol : string) : result playback :=
  Ok (Playback (Some [m3u8_manifest_item]) (VBool true)).

(** Episodes of an audio-described page. *)
Definition ad_episode : dict :=
  {[ "title" := VStr "His Dark Materials";
     "subtitle" := VStr "Series 1: 1. Lyra's Jordan";
     "currentVersion" := VStr "ad" ]}.


(** An audio-described version of a programme. *)
Definition audio_described_version : version :=
  Version
    (Some (SmpConfig (VStr "His Dark Materials - Audio Described") VNone VNone
             (Some [ {[ "kind" := VStr "programme";
                        "vpid" := VStr "p07ss5kj" ]} ])))
    (Some ["AudioDescribed"]).

(** A version without types, and a [BBCCoUkIE] whose playlist document has
    that version and the audio-described one. *)
Definition untyped_version : version :=
  Version
    (Some (SmpConfig (VStr "His Dark Materials") VNone VNone
             (Some [ {[ "kind" := VStr "programme";
                        "vpid" := VStr "m000b1tz" ]} ])))
    None.

Definition with_playlist : BBC.Extractor :=
  {| BBC.IE_NAME := "bbc.co.uk";
     BBC._MEDIA_SETS := ["iptv-all"; "pc"];
     BBC.int_or_none := int_or_none;
     BBC._download_json := λ media_set _,
       if String.eqb media_set "iptv-all"
       then Ok (selection_error "selectionunavailable") else Ok one_video;
     BBC._download_xml := no_xml;
     BBC.fetch_mpd := no_formats;
     BBC.fetch_m3u8 := no_formats;
     BBC.fetch_f4m := no_formats;
     BBC.extract_subtitles := no_subtitles;
     BBC._download_playlist_json := λ _,
       Ok [untyped_version; audio_described_version];
     BBC._process_legacy_playlist := λ _, unable_to_download "XML" |}.

(** A ranking that has no preference among containers and protocols. *)
Definition no_container_preference (f : dict) : Z := 0.

End Runs.

(** * Properties *)

(** ** Python equality and loops *)

Lemma py_eq_refl a : py_eq a a = true.
Proof.
  destruct a as [|b|n|s]; simpl; auto using Z.eqb_refl, String.eqb_refl.
  by destruct b.
Qed.

Lemma py_eq_trans a b c :
  py_eq a b = true → py_eq b c = true → py_eq a c = true.
Proof.
  destruct a as [|x|n|s], b as [|y|m|t], c as [|z|k|u]; simpl;
    try done; rewrite ?Z.eqb_eq, ?String.eqb_eq;
    try (destruct x); try (destruct y); try (destruct z); simpl;
    try done; try congruence; try lia.
Qed.

Lemma py_eq_str v s : py_eq v (VStr s) = true ↔ v = VStr s.
Proof.
  destruct v; simpl; try (split; [done | discriminate]).
  rewrite String.eqb_eq. split; congruence.
Qed.

Lemma py_in_app v l l' : py_in v (l ++ l') = py_in v l || py_in v l'.
Proof. apply existsb_app. Qed.

Lemma py_in_py_eq a b l :
  py_eq a b = true → py_in b l = true → py_in a l = true.
Proof.
  unfold py_in. intros Hab. rewrite !existsb_exists.
  intros (x & Hx & Hbx). exists x. eauto using py_eq_trans.
Qed.

Lemma bind_Ok {A B} (r : result A) (k : A → result B) b :
  r ≫= k = Ok b → ∃ a, r = Ok a ∧ k a = Ok b.
Proof. destruct r as [a|e]; [eauto | done]. Qed.

Lemma for_each_app {S A} (body : S → A → result S) st l l' :
  for_each body st (l ++ l') = (st' ← for_each body st l; for_each body st' l').
Proof.
  revert st. induction l as [|x l IH]; intros st; [done|].
  simpl. destruct (body st x) as [st1|e]; simpl; [apply IH | done].
Qed.

Lemma for_each_cons {S A} (body : S → A → result S) st x l :
  for_each body st (x :: l) = (st' ← body st x; for_each body st' l).
Proof. done. Qed.

Lemma bind_Ok_l {A B} (a : A) (k : A → result B) : Ok a ≫= k = k a.
Proof. done. Qed.

Lemma bind_Raise_l {A B} (e : exn) (k : A → result B) : Raise e ≫= k = Raise e.
Proof. done. Qed.

(** ** One connection *)

Section bbc_connection.

Import BBC.
Context `{Extractor}.

Lemma process_connection_seen pid kind br enc w h fs formats urls c :
  py_in (get c "href") urls = true →
  process_connection pid kind br enc w h fs (formats, urls) c
    = Ok (formats, urls).
Proof. intros Hin. unfold process_connection. by rewrite Hin. Qed.

Lemma process_connection_urls pid kind br enc w h fs formats urls c formats' urls' :
  process_connection pid kind br enc w h fs (formats, urls) c
    = Ok (formats', urls') →
  urls' = urls_after urls c.
Proof.
  unfold process_connection, urls_after.
  destruct (py_in (get c "href") urls); [by intros [= _ <-]|].
  repeat case_match; intros Hrun;
    apply bind_Ok in Hrun as (x & _ & Hrun);
    repeat case_match; by simplify_eq.
Qed.

Lemma process_connection_plain pid kind br enc w h fs formats urls c :
  plain_branch urls c = true →
  process_connection pid kind br enc w h fs (formats, urls) c =
    (fmt ← plain_format kind br enc w h fs c;
     Ok (from_option (λ fmt, formats ++ [fmt]) formats fmt, urls_after urls c)).
Proof.
  unfold plain_branch, process_connection, urls_after. simpl.
  rewrite !andb_true_iff, !negb_true_iff, !orb_false_iff.
  intros [[-> ->] (-> & -> & -> & _)].
  destruct (plain_format _ _ _ _ _ _ _) as [[fmt|]|e]; done.
Qed.

(** With a string for its kind (or none) and a protocol that is a
    non-empty string, the identifier of a connection is a string and can
    take the bitrate suffix. *)
Lemma suffixed_format_id_str c br :
  str_or_none (get c "kind") = true →
  truthy (get c "protocol") = true → str_or_none (get c "protocol") = true →
  ∃ fid, suffixed_format_id c br = Ok fid.
Proof.
  unfold suffixed_format_id, base_format_id, py_or.
  intros Hk Ht Hp.
  destruct (negb _ && _) eqn:Hc; [|eauto].
  apply andb_true_iff in Hc as [->%negb_true_iff _].
  destruct (get c "kind"), (get c "protocol"); simpl in *; try done;
    repeat case_match; eauto.
Qed.

Lemma plain_format_rtmp kind br enc w h fs c :
  get c "protocol" = VStr "rtmp" →
  str_or_none (get c "kind") = true →
  ∃ fid, plain_format kind br enc w h fs c
         = Ok (Some (update (media_format kind fid br enc w h fs) (rtmp_params c))).
Proof.
  intros Hp Hk.
  destruct (suffixed_format_id_str c br) as [fid Hfid];
    [done | by rewrite Hp | by rewrite Hp |].
  exists fid. unfold plain_format. by rewrite Hfid, Hp.
Qed.

Lemma base_format_id_chain c :
  base_format_id c =
    (if truthy (get c "supplier") then get c "supplier"
     else if truthy (get c "kind") then get c "kind"
     else get c "protocol").
Proof.
  unfold base_format_id, py_or.
  destruct (truthy (get c "supplier")) eqn:Hsupplier; [|done].
  by rewrite Hsupplier.
Qed.

(** The [format_id] of a record of the last branch is the one it was made
    with: no later [update] touches it. *)
Lemma media_format_format_id kind fid br enc w h fs (e : dict) :
  e !! "format_id" = None →
  update (media_format kind fid br enc w h fs) e !! "format_id" = Some fid.
Proof.
  intros He. unfold update, media_format.
  rewrite lookup_union_r by done.
  destruct (py_eq kind (VStr "video")); unfold update;
    rewrite lookup_union_r by done; by simplify_map_eq.
Qed.

Lemma plain_format_format_id kind br enc w h fs c fmt :
  plain_format kind br enc w h fs c = Ok (Some fmt) →
  ∃ fid, suffixed_format_id c br = Ok fid ∧ fmt !! "format_id" = Some fid.
Proof.
  unfold plain_format.
  intros (fid & Hfid & Hfmt)%bind_Ok. exists fid. split; [done|].
  destruct (py_in _ _); [|destruct (py_eq _ _)]; simplify_eq;
    apply media_format_format_id; unfold rtmp_params; by simplify_map_eq.
Qed.

(** In best-effort mode the HLS adapter does not raise: the [except] clause
    has nothing to handle. *)
Lemma m3u8_formats_or_empty_fetched href pid fid :
  m3u8_formats_or_empty href pid fid =
    Ok (match fetch_m3u8 href pid fid with
        | Ok fmts => fmts
        | Raise _ => []
        end).
Proof.
  unfold m3u8_formats_or_empty, _extract_m3u8_formats, expand_manifest.
  by destruct (fetch_m3u8 href pid fid).
Qed.

End bbc_connection.

Section bbc_connection_claims.

Import BBC.
Context `{Extractor}.

(** C4. The identifier of every connection the loop processes follows a
    fixed preference chain: the [supplier] attribute when the connection has
    one (a value Python counts as true: not null, not empty), else its
    [kind], else its [protocol]. Whatever a new connection adds to the
    format list is named with it: the records of an ASX playlist are
    [ref<i>_<identifier>], a DASH, HLS or HDS manifest is expanded with the
    identifier as prefix, and the record of a direct link or an RTMP stream
    has it as [format_id], followed by the bitrate where that is
    appended. *)
Theorem format_id_preference_chain pid kind br enc w h fs formats urls
    (connection : dict) (formats' : list dict) (urls' : list value) :
  py_in (get connection "href") urls = false →
  process_connection pid kind br enc w h fs (formats, urls) connection
    = Ok (formats', urls') →
  let supplier := get connection "supplier" in
  let conn_kind := get connection "kind" in
  let protocol := get connection "protocol" in
  let href := get connection "href" in
  let transfer_format := get connection "transferFormat" in
  let chosen :=
    if truthy supplier then supplier
    else if truthy conn_kind then conn_kind
    else protocol in
  ∃ fmts : list dict,
    formats' = formats ++ fmts ∧
    if py_eq supplier (VStr "asx") then
      ∃ refs : list value,
        _extract_asx_playlist connection pid = Ok refs ∧
        fmts = imap (λ i ref,
                       {[ "url" := ref;
                          "format_id" := VStr ("ref" +:+ pretty i +:+ "_"
                                               +:+ py_str chosen) ]}) refs
    else if py_eq transfer_format (VStr "dash") then
      _extract_mpd_formats href pid chosen false = Ok fmts
    else if py_eq transfer_format (VStr "hls") then
      m3u8_formats_or_empty href pid chosen = Ok fmts
    else if py_eq transfer_format (VStr "hds") then
      _extract_f4m_formats href pid chosen false = Ok fmts
    else
      ∀ f : dict, f ∈ fmts →
        f !! "format_id" =
          Some (if negb (truthy supplier) && truthy (of_int br)
                then VStr (py_str chosen +:+ "-" +:+ py_str (of_int br))
                else chosen).
Proof.
  intros Hnew Hrun supplier conn_kind protocol href transfer_format chosen.
  pose proof (base_format_id_chain connection) as Hchosen.
  fold supplier conn_kind protocol chosen in Hchosen.
  unfold process_connection in Hrun. rewrite Hnew, Hchosen in Hrun.
  fold supplier transfer_format href in Hrun.
  destruct (py_eq supplier (VStr "asx")).
  { apply bind_Ok in Hrun as (refs & Hrefs & [= <- _]).
    eexists. split; [done|]. by exists refs. }
  destruct (py_eq transfer_format (VStr "dash")).
  { apply bind_Ok in Hrun as (fmts & Hfmts & [= <- _]). by exists fmts. }
  destruct (py_eq transfer_format (VStr "hls")).
  { apply bind_Ok in Hrun as (fmts & Hfmts & [= <- _]). by exists fmts. }
  destruct (py_eq transfer_format (VStr "hds")).
  { apply bind_Ok in Hrun as (fmts & Hfmts & [= <- _]). by exists fmts. }
  apply bind_Ok in Hrun as ([fmt|] & Hfmt & [= <- _]).
  - exists [fmt]. split; [done|]. intros f ->%list_elem_of_singleton.
    apply plain_format_format_id in Hfmt as (fid & Hfid & ->).
    unfold suffixed_format_id in Hfid. rewrite Hchosen in Hfid.
    fold supplier in Hfid.
    destruct (negb (truthy supplier) && truthy (of_int br)); [|congruence].
    clearbody chosen. destruct chosen; try done. by injection Hfid as <-.
  - exists []. split; [by rewrite app_nil_r|]. by intros f ?%elem_of_nil.
Qed.

(** C5. An RTMP connection with server [S], application [A], auth string
    [T] and identifier [I] that reaches the RTMP branch (it is new, no ASX
    playlist and no manifest, and its kind is a string or missing) adds one
    record, whose [url] is [rtmp://S/A?T], whose [play_path] is [I] and
    whose [app] is [A?T]. *)
Theorem rtmp_connection_parameters pid kind br enc w h fs formats urls
    (connection : dict) (S A T I : string) :
  connection !! "protocol" = Some (VStr "rtmp") →
  connection !! "server" = Some (VStr S) →
  connection !! "application" = Some (VStr A) →
  connection !! "authString" = Some (VStr T) →
  connection !! "identifier" = Some (VStr I) →
  plain_branch urls connection = true →
  str_or_none (get connection "kind") = true →
  ∃ fmt : dict,
    process_connection pid kind br enc w h fs (formats, urls) connection
      = Ok (formats ++ [fmt], urls_after urls connection) ∧
    fmt !! "url" = Some (VStr ("rtmp://" +:+ S +:+ "/" +:+ A +:+ "?" +:+ T)) ∧
    fmt !! "play_path" = Some (VStr I) ∧
    fmt !! "app" = Some (VStr (A +:+ "?" +:+ T)).
Proof.
  intros Hp Hs Ha Ht Hi Hplain Hkind.
  assert (get connection "protocol" = VStr "rtmp") as Hp'
    by (unfold get; by rewrite Hp).
  destruct (plain_format_rtmp kind br enc w h fs connection) as [fid Hfmt];
    [done..|].
  eexists. rewrite process_connection_plain, Hfmt by done.
  split; [done|].
  unfold update, rtmp_params, get_default, get.
  rewrite Hp, Hs, Ha, Ht, Hi.
  repeat split; apply lookup_union_Some_l; by simplify_map_eq.
Qed.

(** C10. An RTMP connection without an [application] attribute that reaches
    the RTMP branch adds one record that uses the application [ondemand]:
    its [url] is [rtmp://<server>/ondemand?<auth>] and its [app] is
    [ondemand?<auth>], with the connection's [server] and [authString]. *)
Theorem rtmp_default_application pid kind br enc w h fs formats urls
    (connection : dict) :
  connection !! "protocol" = Some (VStr "rtmp") →
  connection !! "application" = None →
  plain_branch urls connection = true →
  str_or_none (get connection "kind") = true →
  ∃ fmt : dict,
    process_connection pid kind br enc w h fs (formats, urls) connection
      = Ok (formats ++ [fmt], urls_after urls connection) ∧
    fmt !! "url" =
      Some (VStr ("rtmp://" +:+ py_str (get connection "server")
                  +:+ "/ondemand?" +:+ py_str (get connection "authString"))) ∧
    fmt !! "app" =
      Some (VStr ("ondemand?" +:+ py_str (get connection "authString"))).
Proof.
  intros Hp Ha Hplain Hkind.
  assert (get connection "protocol" = VStr "rtmp") as Hp'
    by (unfold get; by rewrite Hp).
  destruct (plain_format_rtmp kind br enc w h fs connection) as [fid Hfmt];
    [done..|].
  eexists. rewrite process_connection_plain, Hfmt by done.
  split; [done|].
  unfold update, rtmp_params, get_default. rewrite Hp', Ha.
  split; apply lookup_union_Some_l; by simplify_map_eq.
Qed.

(** C7, as amended. A new connection that reaches the last branch of the
    loop (it is no ASX playlist and no DASH, HLS or HDS manifest) and is a
    direct link or an RTMP stream, that has no supplier and a string as
    identifier (its kind, else its protocol), in a media whose bitrate is a
    number other than 0, gets the bitrate appended to its identifier after
    a [-]: its record has the [format_id] [<kind or protocol>-<bitrate>]. *)
Theorem bitrate_suffix pid kind (bitrate : Z) enc w h fs formats urls
    (connection : dict) (name : string) :
  truthy (get connection "supplier") = false →
  bitrate ≠ 0 →
  base_format_id connection = VStr name →
  plain_branch urls connection = true →
  py_in (get connection "protocol") [VStr "http"; VStr "https"; VStr "rtmp"]
    = true →
  ∃ fmt : dict,
    process_connection pid kind (Some bitrate) enc w h fs (formats, urls)
      connection = Ok (formats ++ [fmt], urls_after urls connection) ∧
    fmt !! "format_id" = Some (VStr (name +:+ "-" +:+ pretty bitrate)).
Proof.
  intros Hsupplier Hbitrate Hname Hplain Hprotocol.
  rewrite process_connection_plain by done.
  unfold plain_format, suffixed_format_id. rewrite Hsupplier, Hname. simpl.
  apply Z.eqb_neq in Hbitrate as ->. simpl.
  assert (∀ e : dict,
    e !! "format_id" = None →
    update (media_format kind (VStr (name +:+ "-" +:+ pretty bitrate))
              (Some bitrate) enc w h fs) e !! "format_id"
    = Some (VStr (name +:+ "-" +:+ pretty bitrate))) as Hid.
  { intros e He. unfold update, media_format.
    rewrite lookup_union_r by done.
    destruct (py_eq kind (VStr "video")); unfold update;
      rewrite lookup_union_r by done; by simplify_map_eq. }
  simpl in Hprotocol.
  destruct (py_eq (get connection "protocol") (VStr "http")
            || py_eq (get connection "protocol") (VStr "https")) eqn:Hhttp.
  - rewrite orb_assoc, Hhttp. simpl. eexists; split; [done|].
    apply Hid. by simplify_map_eq.
  - rewrite orb_assoc, Hhttp in *. simpl in *.
    rewrite orb_false_r in Hprotocol. rewrite Hprotocol.
    eexists; split; [done|]. apply Hid. unfold rtmp_params. by simplify_map_eq.
Qed.

(** C8. An ASX connection (supplier [asx]) that is new is expanded into one
    record per [ref] entry of the playlist at its [href]: the [i]-th entry
    gives the [i]-th new record, with the entry's [href] attribute as [url]
    and [ref<i>_asx] as [format_id]. *)
Theorem asx_playlist_records pid kind br enc w h fs formats urls
    (connection : dict) (asx : element) :
  get connection "supplier" = VStr "asx" →
  py_in (get connection "href") urls = false →
  _download_xml (get connection "href") pid = Ok asx →
  ∃ fmts : list dict,
    process_connection pid kind br enc w h fs (formats, urls) connection
      = Ok (formats ++ fmts, urls_after urls connection) ∧
    length fmts = length (findall_Entry_ref asx) ∧
    ∀ (i : nat) (ref : element),
      findall_Entry_ref asx !! i = Some ref →
      fmts !! i = Some {[ "url" := elem_get ref "href";
                          "format_id" := VStr ("ref" +:+ pretty i +:+ "_asx") ]}.
Proof.
  intros Hsupplier Hnew Hxml.
  unfold process_connection, urls_after, _extract_asx_playlist.
  rewrite Hnew, Hsupplier, Hxml. simpl.
  eexists. split; [done|]. split.
  - by rewrite length_imap, length_fmap.
  - intros i ref Hi.
    rewrite list_lookup_imap, list_lookup_fmap, Hi. simpl.
    unfold asx_format, base_format_id, py_or. by rewrite Hsupplier.
Qed.

(** A connection that is no ASX playlist, no manifest, no direct link and
    no RTMP stream adds no record, provided its identifier can be formed. *)
Lemma unsupported_connection_skipped pid kind br enc w h fs formats urls c fid :
  plain_branch urls c = true →
  py_in (get c "protocol") [VStr "http"; VStr "https"; VStr "rtmp"] = false →
  suffixed_format_id c br = Ok fid →
  process_connection pid kind br enc w h fs (formats, urls) c
    = Ok (formats, urls_after urls c).
Proof.
  intros Hplain Hprotocol Hfid.
  rewrite process_connection_plain by done.
  unfold plain_format. rewrite Hfid. simpl in *.
  apply orb_false_iff in Hprotocol as [-> [-> [-> _]%orb_false_iff]%orb_false_iff].
  done.
Qed.

(** C3, as amended. [_process_media_selector] expands DASH and HLS
    manifests in best-effort mode ([fatal=False]). When the request for the
    manifest of a new DASH or HLS connection fails, with an HTTP 403 or 404
    error or with any other error, the failure is swallowed: the connection
    adds no record and no error is raised to the caller. When the manifest
    is there, the records of its renditions are added. *)
Theorem manifest_failure_swallowed pid kind br enc w h fs formats urls
    (connection : dict) :
  py_in (get connection "href") urls = false →
  py_eq (get connection "supplier") (VStr "asx") = false →
  py_in (get connection "transferFormat") [VStr "dash"; VStr "hls"] = true →
  match fetched_manifest pid connection with
  | Raise e =>
      process_connection pid kind br enc w h fs (formats, urls) connection
        = Ok (formats, urls_after urls connection)
  | Ok fmts =>
      process_connection pid kind br enc w h fs (formats, urls) connection
        = Ok (formats ++ fmts, urls_after urls connection)
  end.
Proof.
  intros Hnew Hsupplier Hmanifest.
  unfold process_connection, urls_after, fetched_manifest.
  rewrite Hnew, Hsupplier. simpl in Hmanifest.
  destruct (py_eq (get connection "transferFormat") (VStr "dash")).
  - unfold _extract_mpd_formats, expand_manifest.
    destruct (fetch_mpd _ _ _) as [fmts|e]; simpl; [done|].
    by rewrite app_nil_r.
  - simpl in Hmanifest. rewrite orb_false_r in Hmanifest. rewrite Hmanifest.
    rewrite m3u8_formats_or_empty_fetched.
    destruct (fetch_m3u8 _ _ _) as [fmts|e]; simpl; [done|].
    by rewrite app_nil_r.
Qed.

End bbc_connection_claims.

(** ** The claims about one connection, on concrete connections *)

Lemma rtmp_connection_parameters_witness :
  ∃ fmt : dict,
    BBC.process_connection (H:=Runs.offline) (VStr "b039d07m") (VStr "video")
      None VNone None None None ([], []) (Runs.rtmp_connection "akamai")
      = Ok ([] ++ [fmt], urls_after [] (Runs.rtmp_connection "akamai")) ∧
    fmt !! "url" = Some (VStr ("rtmp://" +:+ "host" +:+ "/" +:+ "ondemand"
                               +:+ "?" +:+ "token123")) ∧
    fmt !! "play_path" = Some (VStr "path/to/stream") ∧
    fmt !! "app" = Some (VStr ("ondemand" +:+ "?" +:+ "token123")).
Proof.
  apply (rtmp_connection_parameters (H:=Runs.offline)); reflexivity.
Defined.

Lemma rtmp_default_application_witness :
  ∃ fmt : dict,
    BBC.process_connection (H:=Runs.offline) (VStr "b039d07m") (VStr "audio")
      None VNone None None None ([], []) Runs.rtmp_without_application
      = Ok ([] ++ [fmt], urls_after [] Runs.rtmp_without_application) ∧
    fmt !! "url" =
      Some (VStr ("rtmp://"
                  +:+ py_str (get Runs.rtmp_without_application "server")
                  +:+ "/ondemand?"
                  +:+ py_str (get Runs.rtmp_without_application "authString"))) ∧
    fmt !! "app" =
      Some (VStr ("ondemand?"
                  +:+ py_str (get Runs.rtmp_without_application "authString"))).
Proof.
  apply (rtmp_default_application (H:=Runs.offline)); reflexivity.
Defined.

Lemma bitrate_suffix_witness :
  ∃ fmt : dict,
    BBC.process_connection (H:=Runs.offline) (VStr "b039d07m") (VStr "video")
      (Some 320) VNone None None None ([], []) Runs.http_connection
      = Ok ([] ++ [fmt], urls_after [] Runs.http_connection) ∧
    fmt !! "format_id" = Some (VStr ("akamai" +:+ "-" +:+ pretty 320)).
Proof.
  apply (bitrate_suffix (H:=Runs.offline)); [reflexivity | lia | reflexivity..].
Defined.

Lemma asx_playlist_records_witness :
  ∃ fmts : list dict,
    BBC.process_connection (H:=Runs.with_asx) (VStr "b039d07m") (VStr "audio")
      None VNone None None None ([], []) Runs.asx_connection
      = Ok ([] ++ fmts, urls_after [] Runs.asx_connection) ∧
    length fmts = length (findall_Entry_ref Runs.asx_playlist) ∧
    ∀ (i : nat) (ref : element),
      findall_Entry_ref Runs.asx_playlist !! i = Some ref →
      fmts !! i = Some {[ "url" := elem_get ref "href";
                          "format_id" := VStr ("ref" +:+ pretty i +:+ "_asx") ]}.
Proof.
  apply (asx_playlist_records (H:=Runs.with_asx)); reflexivity.
Defined.

Lemma manifest_failure_swallowed_witness :
  match fetched_manifest (H:=Runs.no_manifest Runs.manifest_not_found)
          (VStr "b039d07m") Runs.hls_connection with
  | Raise e =>
      BBC.process_connection (H:=Runs.no_manifest Runs.manifest_not_found)
        (VStr "b039d07m") (VStr "video") None VNone None None None ([], [])
        Runs.hls_connection
      = Ok ([], urls_after [] Runs.hls_connection)
  | Ok fmts =>
      BBC.process_connection (H:=Runs.no_manifest Runs.manifest_not_found)
        (VStr "b039d07m") (VStr "video") None VNone None None None ([], [])
        Runs.hls_connection
      = Ok ([] ++ fmts, urls_after [] Runs.hls_connection)
  end.
Proof.
  apply (manifest_failure_swallowed
           (H:=Runs.no_manifest Runs.manifest_not_found)); reflexivity.
Defined.

(** The run of the witness, and two redundant media sets of which the
    first has a manifest that is not found and the second a manifest with
    two variants: exactly the two variants are returned, and no error. *)
Example manifest_not_found_run :
  fetched_manifest (H:=Runs.no_manifest Runs.manifest_not_found)
    (VStr "b039d07m") Runs.hls_connection = Raise Runs.manifest_not_found ∧
  BBC.process_connection (H:=Runs.no_manifest Runs.manifest_not_found)
    (VStr "b039d07m") (VStr "video") None VNone None None None ([], [])
    Runs.hls_connection
  = Ok ([], [VStr "https://bbc/master.m3u8"]) ∧
  BBC._download_media_selector (H:=Runs.first_manifest_not_found)
    (VStr "b039d07m")
  = Ok ([ Runs.variant (VStr "https://b.bbc/master.m3u8") (VStr "mf_akamai") 360;
          Runs.variant (VStr "https://b.bbc/master.m3u8") (VStr "mf_akamai") 720 ],
        ∅, []).
Proof. repeat split; reflexivity. Qed.

Lemma format_id_preference_chain_witness :
  let supplier := get Runs.hls_connection "supplier" in
  let conn_kind := get Runs.hls_connection "kind" in
  let protocol := get Runs.hls_connection "protocol" in
  let href := get Runs.hls_connection "href" in
  let transfer_format := get Runs.hls_connection "transferFormat" in
  let chosen :=
    if truthy supplier then supplier
    else if truthy conn_kind then conn_kind
    else protocol in
  ∃ fmts : list dict,
    [ Runs.media_playlist_format (VStr "https://bbc/master.m3u8")
        (VStr "mf_akamai") ] = [] ++ fmts ∧
    if py_eq supplier (VStr "asx") then
      ∃ refs : list value,
        BBC._extract_asx_playlist (H:=Runs.media_playlists)
          Runs.hls_connection (VStr "b039d07m") = Ok refs ∧
        fmts = imap (λ i ref,
                       {[ "url" := ref;
                          "format_id" := VStr ("ref" +:+ pretty i +:+ "_"
                                               +:+ py_str chosen) ]}) refs
    else if py_eq transfer_format (VStr "dash") then
      BBC._extract_mpd_formats (H:=Runs.media_playlists) href
        (VStr "b039d07m") chosen false = Ok fmts
    else if py_eq transfer_format (VStr "hls") then
      BBC.m3u8_formats_or_empty (H:=Runs.media_playlists) href
        (VStr "b039d07m") chosen = Ok fmts
    else if py_eq transfer_format (VStr "hds") then
      BBC._extract_f4m_formats (H:=Runs.media_playlists) href
        (VStr "b039d07m") chosen false = Ok fmts
    else
      ∀ f : dict, f ∈ fmts →
        f !! "format_id" =
          Some (if negb (truthy supplier) && truthy (of_int (Some 320))
                then VStr (py_str chosen +:+ "-" +:+ py_str (of_int (Some 320)))
                else chosen).
Proof.
  apply (format_id_preference_chain (H:=Runs.media_playlists)
           (VStr "b039d07m") (VStr "video") (Some 320) VNone None None None
           [] [] Runs.hls_connection
           [ Runs.media_playlist_format (VStr "https://bbc/master.m3u8")
               (VStr "mf_akamai") ]
           [VStr "https://bbc/master.m3u8"]);
    [reflexivity | reflexivity].
Defined.

(** The identifier the manifest of the witness is expanded with. *)
Example hls_connection_identifier :
  BBC.base_format_id Runs.hls_connection = VStr "mf_akamai" ∧
  BBC.process_connection (H:=Runs.media_playlists) (VStr "b039d07m")
    (VStr "video") (Some 320) VNone None None None ([], []) Runs.hls_connection
  = Ok ([ Runs.media_playlist_format (VStr "https://bbc/master.m3u8")
            (VStr "mf_akamai") ],
        [VStr "https://bbc/master.m3u8"]).
Proof. split; reflexivity. Qed.

(** C9. A connection that no branch of the loop handles should be skipped
    in silence, but the bitrate suffix is appended before the protocol is
    looked at: a connection without [supplier], [kind] and [protocol], in a
    video with a bitrate, has [None] as identifier, and appending to it
    raises [TypeError]. *)
Theorem bare_connection_type_error :
  py_in (get (∅ : dict) "transferFormat") [VStr "dash"; VStr "hls"; VStr "hds"]
    = false ∧
  py_eq (get (∅ : dict) "supplier") (VStr "asx") = false ∧
  py_in (get (∅ : dict) "protocol") [VStr "http"; VStr "https"; VStr "rtmp"]
    = false ∧
  BBC._process_media_selector (H:=Runs.offline) Runs.bare_connection
    (VStr "b039d07m") = Raise TypeError.
Proof. repeat split. Qed.

(** C3 does not hold for the other errors: when the request for the
    manifest of an HLS or of a DASH connection fails with an HTTP 500 error,
    which is neither 403 nor 404, the error is not raised to the caller
    either, and the connection adds no record. *)
Lemma server_error_not_raised :
  forbidden_or_not_found Runs.server_error = false ∧
  fetched_manifest (H:=Runs.no_manifest Runs.server_error) (VStr "b039d07m")
    Runs.hls_connection = Raise Runs.server_error ∧
  BBC.process_connection (H:=Runs.no_manifest Runs.server_error)
    (VStr "b039d07m") (VStr "video") None VNone None None None ([], [])
    Runs.hls_connection
  = Ok ([], [VStr "https://bbc/master.m3u8"]) ∧
  fetched_manifest (H:=Runs.no_manifest Runs.server_error) (VStr "b039d07m")
    Runs.dash_connection = Raise Runs.server_error ∧
  BBC.process_connection (H:=Runs.no_manifest Runs.server_error)
    (VStr "b039d07m") (VStr "video") None VNone None None None ([], [])
    Runs.dash_connection
  = Ok ([], [VStr "https://bbc/manifest.mpd"]).
Proof. repeat split; reflexivity. Qed.

(** C7 does not hold for every connection without supplier in a media
    with a numeric bitrate: an HLS connection is expanded under its bare
    identifier, whatever the bitrate of its media, and on a direct link a
    bitrate of 0 counts as no bitrate and is not appended. *)
Lemma bitrate_not_appended :
  BBC.process_connection (H:=Runs.media_playlists) (VStr "b039d07m")
    (VStr "audio") (Some 320) VNone None None None ([], [])
    Runs.hls_without_supplier
  = Ok ([Runs.media_playlist_format (VStr "https://bbc/audio.m3u8")
           (VStr "https")],
        [VStr "https://bbc/audio.m3u8"]) ∧
  BBC.process_connection (H:=Runs.offline) (VStr "b039d07m") (VStr "video")
    (Some 0) VNone None None None ([], []) Runs.http_connection
  = Ok ([<[ "tbr" := VInt 0 ]> Runs.http_format],
        [VStr "http://bbc/clip.mp4"]) ∧
  (<[ "tbr" := VInt 0 ]> Runs.http_format : dict) !! "format_id"
  = Some (VStr "akamai").
Proof. repeat split; reflexivity. Qed.

(** C1 does not hold for the [url] of the records: two RTMP connections to
    the same server, application and token give two records with the same
    [url], and both are kept. *)
Lemma same_url_kept_twice :
  BBC._process_media_selector (H:=Runs.offline) Runs.two_suppliers
    (VStr "b039d07m")
  = Ok ([Runs.rtmp_format "akamai"; Runs.rtmp_format "limelight"], None) ∧
  Runs.rtmp_format "akamai" !! "url" = Runs.rtmp_format "limelight" !! "url" ∧
  Runs.rtmp_format "akamai" !! "format_id"
    ≠ Runs.rtmp_format "limelight" !! "format_id".
Proof. split; [reflexivity | split; [reflexivity | discriminate]]. Qed.

(** C2 does not hold for every error of a media set: [iptv-all] yields a
    format, [pc] answers [authorization], and the extraction fails. *)
Lemma other_error_not_recovered :
  BBC._download_media_selector_url (H:=Runs.pc_unauthorized) "iptv-all"
    (VStr "b039d07m") = Ok ([Runs.http_format], None) ∧
  BBC._download_media_selector (H:=Runs.pc_unauthorized) (VStr "b039d07m")
  = Raise (ExtractorError "bbc.co.uk returned error: authorization"
             OtherExc NoExc).
Proof. split; reflexivity. Qed.

(** ** The loop over the media sets *)

Section bbc_media_sets.

Import BBC.
Context `{Extractor}.

Lemma download_media_sets_run pid media_sets last_exception formats subtitles :
  forallb (λ media_set,
             match _download_media_selector_url media_set pid with
             | Ok _ => true
             | Raise (MediaSelectionError id) => recoverable id
             | Raise _ => false
             end) media_sets = true →
  for_each (download_media_set pid) (last_exception, formats, subtitles) media_sets
  = Ok (last_failure_of pid last_exception media_sets,
        formats ++ yielded_formats_of pid media_sets,
        yielded_subtitles_of pid subtitles media_sets).
Proof.
  revert last_exception formats subtitles.
  induction media_sets as [|media_set media_sets IH];
    intros last_exception formats subtitles Hall.
  - simpl. by rewrite app_nil_r.
  - simpl in Hall. apply andb_true_iff in Hall as [Hset Hall].
    unfold yielded_formats_of, yielded_subtitles_of, last_failure_of.
    simpl. unfold download_media_set at 1.
    destruct (_download_media_selector_url media_set pid)
      as [[fmts sttls]|[id| | | |]]; try done.
    + simpl. rewrite IH by done. by rewrite <- app_assoc.
    + rewrite Hset. simpl. by rewrite IH.
Qed.

Lemma yielded_formats_of_subseteq pid media_sets media_set fmts sttls :
  media_set ∈ media_sets →
  _download_media_selector_url media_set pid = Ok (fmts, sttls) →
  fmts ⊆ yielded_formats_of pid media_sets.
Proof.
  intros Hin Hrun f Hf. unfold yielded_formats_of.
  apply list_elem_of_bind. exists media_set. by rewrite Hrun.
Qed.

(** C2, for the errors another media set may make up for. When every
    failing media set fails with [notukerror], [geolocation] or
    [selectionunavailable]: the formats of every media set that answers are
    among the accumulated formats; if the accumulated formats or subtitles
    are not empty they are returned, with at most one warning; and an error
    is raised only if both are empty. *)
Theorem recoverable_failures_contained (programme_id : value) :
  only_recoverable programme_id = true →
  (∀ media_set fmts sttls,
     media_set ∈ _MEDIA_SETS →
     _download_media_selector_url media_set programme_id = Ok (fmts, sttls) →
     fmts ⊆ yielded_formats programme_id) ∧
  (yielded_formats programme_id ≠ [] ∨ yielded_subtitles programme_id ≠ ∅ →
   ∃ warnings,
     _download_media_selector programme_id
       = Ok (yielded_formats programme_id, yielded_subtitles programme_id,
             warnings) ∧
     (length warnings ≤ 1)%nat) ∧
  (∀ e, _download_media_selector programme_id = Raise e →
     yielded_formats programme_id = [] ∧
     yielded_subtitles programme_id = ∅ ∧
     ∃ id, last_failure programme_id = Some id ∧
           e = ExtractorError (returned_error id) NoExc NoExc).
Proof.
  intros Hall. split; [|split].
  - intros media_set fmts sttls. apply yielded_formats_of_subseteq.
  - intros Hsome. unfold _download_media_selector.
    rewrite download_media_sets_run by done. simpl.
    fold (yielded_formats programme_id) (yielded_subtitles programme_id).
    assert (bool_decide (yielded_formats programme_id ≠ [])
            || bool_decide (yielded_subtitles programme_id ≠ ∅) = true) as ->.
    { apply orb_true_iff. destruct Hsome; [left | right]; by apply bool_decide_eq_true. }
    destruct (last_failure_of _ _ _) as [id|]; [destruct (negb _)|];
      eexists; (split; [done | simpl; lia]).
  - intros e. unfold _download_media_selector.
    rewrite download_media_sets_run by done. simpl.
    fold (yielded_formats programme_id) (yielded_subtitles programme_id)
         (last_failure programme_id).
    destruct (last_failure programme_id) as [id|]; [|done].
    destruct (bool_decide (yielded_formats programme_id ≠ [])) eqn:Hf; simpl.
    { by destruct (negb _). }
    destruct (bool_decide (yielded_subtitles programme_id ≠ ∅)) eqn:Hs; simpl.
    { by destruct (negb _). }
    intros [= <-].
    apply bool_decide_eq_false in Hf, Hs.
    split; [by destruct (decide (yielded_formats programme_id = []))|].
    split; [by destruct (decide (yielded_subtitles programme_id = ∅))|].
    by exists id.
Qed.

Lemma str_in_refl s : str_in s s = true.
Proof.
  assert (String.prefix s s = true) as Hprefix.
  { induction s as [|a s IH]; [done|]. simpl. by destruct (ascii_dec a a). }
  destruct s; simpl in *; [done|]. by rewrite Hprefix.
Qed.

End bbc_media_sets.

Lemma recoverable_failures_contained_witness :
  (∀ media_set fmts sttls,
     media_set ∈ BBC._MEDIA_SETS (Extractor:=Runs.iptv_geolocation) →
     BBC._download_media_selector_url (H:=Runs.iptv_geolocation) media_set
       (VStr "b039d07m") = Ok (fmts, sttls) →
     fmts ⊆ yielded_formats (H:=Runs.iptv_geolocation) (VStr "b039d07m")) ∧
  (yielded_formats (H:=Runs.iptv_geolocation) (VStr "b039d07m") ≠ [] ∨
   yielded_subtitles (H:=Runs.iptv_geolocation) (VStr "b039d07m") ≠ ∅ →
   ∃ warnings,
     BBC._download_media_selector (H:=Runs.iptv_geolocation) (VStr "b039d07m")
       = Ok (yielded_formats (H:=Runs.iptv_geolocation) (VStr "b039d07m"),
             yielded_subtitles (H:=Runs.iptv_geolocation) (VStr "b039d07m"),
             warnings) ∧
     (length warnings ≤ 1)%nat) ∧
  (∀ e, BBC._download_media_selector (H:=Runs.iptv_geolocation)
          (VStr "b039d07m") = Raise e →
     yielded_formats (H:=Runs.iptv_geolocation) (VStr "b039d07m") = [] ∧
     yielded_subtitles (H:=Runs.iptv_geolocation) (VStr "b039d07m") = ∅ ∧
     ∃ id, last_failure (H:=Runs.iptv_geolocation) (VStr "b039d07m") = Some id ∧
           e = ExtractorError
                 (BBC.returned_error (H:=Runs.iptv_geolocation) id)
                 NoExc NoExc).
Proof.
  apply (recoverable_failures_contained (H:=Runs.iptv_geolocation)).
  reflexivity.
Defined.

(** The run of the witness: the video of [pc] is returned, with a warning
    for the [geolocation] error of [iptv-all]. *)
Example iptv_geolocation_run :
  BBC._download_media_selector (H:=Runs.iptv_geolocation) (VStr "b039d07m")
  = Ok ([Runs.http_format], ∅, ["bbc.co.uk returned error: geolocation"]).
Proof. reflexivity. Qed.

(** ** De-duplication in the media selector *)

Section bbc_first_seen.

Import BBC.
Context `{Extractor}.

Lemma urls_after_mono urls c v :
  py_in v urls = true → py_in v (urls_after urls c) = true.
Proof.
  intros Hv. unfold urls_after. repeat case_match; try done.
  by rewrite py_in_app, Hv.
Qed.

Lemma urls_after_href urls c :
  truthy (get c "href") = true →
  py_in (get c "href") (urls_after urls c) = true.
Proof.
  intros Ht. unfold urls_after. rewrite Ht.
  destruct (py_in (get c "href") urls) eqn:Hin; [done|].
  rewrite py_in_app, Hin. simpl. by rewrite py_eq_refl.
Qed.

Lemma urls_after_seen urls c :
  py_in (get c "href") urls = true → urls_after urls c = urls.
Proof. intros Hin. unfold urls_after. by rewrite Hin. Qed.

Lemma foldl_urls_after_new seen connections :
  foldl urls_after seen (new_connections seen connections)
  = foldl urls_after seen connections.
Proof.
  revert seen. induction connections as [|c cs IH]; intros seen; [done|].
  simpl. destruct (py_in (get c "href") seen) eqn:Hin.
  - by rewrite IH, urls_after_seen.
  - simpl. apply IH.
Qed.

Lemma new_connections_app seen l1 l2 :
  new_connections seen (l1 ++ l2)
  = new_connections seen l1 ++ new_connections (foldl urls_after seen l1) l2.
Proof.
  revert seen. induction l1 as [|c cs IH]; intros seen; [done|].
  simpl. destruct (py_in (get c "href") seen) eqn:Hin.
  - by rewrite IH, urls_after_seen.
  - simpl. by rewrite IH.
Qed.

(** The connection loop does on all connections what it does on the new
    ones. *)
Lemma for_each_new_connections pid kind br enc w h fs formats urls connections :
  for_each (process_connection pid kind br enc w h fs) (formats, urls)
    connections
  = for_each (process_connection pid kind br enc w h fs) (formats, urls)
      (new_connections urls connections).
Proof.
  revert formats urls.
  induction connections as [|c cs IH]; intros formats urls; [done|].
  cbn [new_connections]. rewrite for_each_cons.
  destruct (py_in (get c "href") urls) eqn:Hin.
  - rewrite process_connection_seen, bind_Ok_l by done. apply IH.
  - rewrite for_each_cons.
    destruct (process_connection pid kind br enc w h fs (formats, urls) c)
      as [[formats' urls']|e] eqn:Hstep; [|done].
    rewrite !bind_Ok_l. apply process_connection_urls in Hstep as ->. apply IH.
Qed.

Lemma for_each_connections_urls pid kind br enc w h fs connections :
  ∀ formats urls formats' urls',
    for_each (process_connection pid kind br enc w h fs) (formats, urls)
      connections = Ok (formats', urls') →
    urls' = foldl urls_after urls connections.
Proof.
  induction connections as [|c cs IH]; intros formats urls formats' urls' Hrun.
  - by injection Hrun as _ <-.
  - rewrite for_each_cons in Hrun.
    apply bind_Ok in Hrun as ([formats1 urls1] & Hstep & Hrun).
    apply process_connection_urls in Hstep as ->. simpl. eauto.
Qed.

Lemma process_media_video pid m formats subtitles urls :
  is_video_or_audio m = true →
  process_media pid (formats, subtitles, urls) m
  = ('(formats, urls) ← process_connections pid m (formats, urls)
                          (_extract_connections m);
     Ok (formats, subtitles, urls)).
Proof. unfold is_video_or_audio, process_media. by intros ->. Qed.

Lemma process_media_other pid m formats subtitles urls :
  is_video_or_audio m = false →
  process_media pid (formats, subtitles, urls) m
  = if py_eq (get (media_attrs m) "kind") (VStr "captions")
    then (subtitles ← extract_subtitles m pid; Ok (formats, Some subtitles, urls))
    else Ok (formats, subtitles, urls).
Proof. unfold is_video_or_audio, process_media. by intros ->. Qed.

Lemma process_connections_new pid m formats urls :
  process_connections pid m (formats, urls) (_extract_connections m)
  = process_connections pid
      (Media (media_attrs m) (Some (new_connections urls (_extract_connections m))))
      (formats, urls) (new_connections urls (_extract_connections m)).
Proof. unfold process_connections. cbn [media_attrs]. apply for_each_new_connections. Qed.

Lemma process_connections_urls pid m connections formats urls formats' urls' :
  process_connections pid m (formats, urls) connections = Ok (formats', urls') →
  urls' = foldl urls_after urls connections.
Proof. unfold process_connections. apply for_each_connections_urls. Qed.

Lemma for_each_first_seen_medias pid medias :
  ∀ formats subtitles urls,
    for_each (process_media pid) (formats, subtitles, urls) medias
    = for_each (process_media pid) (formats, subtitles, urls)
        (first_seen_medias urls medias).
Proof.
  induction medias as [|m ms IH]; intros formats subtitles urls; [done|].
  cbn [first_seen_medias].
  destruct (is_video_or_audio m) eqn:Hkind; rewrite !for_each_cons.
  - rewrite !process_media_video by done.
    cbn [_extract_connections media_connection or_nil default].
    rewrite <- process_connections_new.
    destruct (process_connections pid m (formats, urls) (_extract_connections m))
      as [[formats' urls']|e] eqn:Hrun; [|done].
    rewrite !bind_Ok_l. apply process_connections_urls in Hrun as ->.
    apply IH.
  - rewrite process_media_other by done.
    destruct (py_eq (get (media_attrs m) "kind") (VStr "captions")).
    + destruct (extract_subtitles m pid) as [s|e]; [|done].
      rewrite !bind_Ok_l. apply IH.
    + rewrite !bind_Ok_l. apply IH.
Qed.

Lemma process_media_selector_first_seen selection pid :
  _process_media_selector selection pid
  = _process_media_selector (first_seen selection) pid.
Proof.
  unfold _process_media_selector, _extract_medias, first_seen. simpl.
  destruct (truthy (ms_result selection)); [done|]. simpl.
  rewrite for_each_first_seen_medias.
  by destruct (ms_media selection).
Qed.

Lemma new_connections_not_seen seen connections c :
  c ∈ new_connections seen connections → py_in (get c "href") seen = false.
Proof.
  revert seen. induction connections as [|x cs IH]; intros seen Hin.
  - by apply elem_of_nil in Hin.
  - simpl in Hin. destruct (py_in (get x "href") seen) eqn:Hx; [eauto|].
    apply elem_of_cons in Hin as [->|Hin]; [done|].
    apply IH in Hin.
    destruct (py_in (get c "href") seen) eqn:Hc; [|done].
    by rewrite urls_after_mono in Hin.
Qed.

Lemma new_connections_distinct seen connections :
  distinct_hrefs (new_connections seen connections).
Proof.
  revert seen. induction connections as [|x cs IH]; intros seen.
  - intros i j a b _ Hi. simpl in Hi. by rewrite lookup_nil in Hi.
  - simpl. destruct (py_in (get x "href") seen) eqn:Hx; [apply IH|].
    intros i j a b Hij Hi Hj Ha.
    destruct j as [|j]; [lia|]. simpl in Hj.
    destruct i as [|i]; simpl in Hi.
    + injection Hi as ->.
      apply list_elem_of_lookup_2, new_connections_not_seen in Hj.
      destruct (py_eq (get b "href") (get a "href")) eqn:Heq; [|done].
      rewrite (py_in_py_eq _ _ _ Heq (urls_after_href seen a Ha)) in Hj.
      done.
    + apply (IH (urls_after seen x) i j a b); [lia|done..].
Qed.

Lemma visited_connections_cons m medias :
  visited_connections (m :: medias)
  = (if is_video_or_audio m then _extract_connections m else [])
    ++ visited_connections medias.
Proof. done. Qed.

Lemma visited_first_seen_medias seen medias :
  visited_connections (first_seen_medias seen medias)
  = new_connections seen (visited_connections medias).
Proof.
  revert seen. induction medias as [|m ms IH]; intros seen; [done|].
  cbn [first_seen_medias]. rewrite visited_connections_cons.
  destruct (is_video_or_audio m) eqn:Hkind.
  - rewrite visited_connections_cons, new_connections_app, IH.
    change (is_video_or_audio (Media (media_attrs m) _))
      with (is_video_or_audio m).
    by rewrite Hkind.
  - rewrite visited_connections_cons, Hkind, IH. done.
Qed.

End bbc_first_seen.

(** ** De-duplication in [TV2IE._real_extract] *)

Lemma py_eq_truthy a b : py_eq a b = true → truthy a = truthy b.
Proof.
  destruct a as [|x|n|s], b as [|y|m|t]; simpl; try done;
    rewrite ?Z.eqb_eq, ?String.eqb_eq; try (by intros ->).
  - by destruct x, y.
  - intros ->. by destruct x.
  - intros ->. by destruct y.
Qed.

Section tv2_first_seen.

Import TV2.
Context `{Extractor}.

Lemma process_item_seen vid live p data formats urls item :
  truthy (get item "url") && py_in (get item "url") urls = true →
  process_item vid live p data (formats, urls) item = Ok (formats, urls).
Proof.
  intros [Ht Hin]%andb_true_iff. unfold process_item.
  by rewrite Ht, Hin.
Qed.

Lemma process_item_urls vid live p data formats urls item formats' urls' :
  process_item vid live p data (formats, urls) item = Ok (formats', urls') →
  urls' = format_urls_after vid p urls item.
Proof.
  unfold process_item, format_urls_after.
  destruct (negb (truthy (get item "url")) || py_in (get item "url") urls);
    [by intros [= _ <-]|].
  destruct (_is_valid_url _ _ _) as [[|]|e]; simpl; [|by intros [= _ <-]|done].
  destruct (determine_ext _) as [ext|e]; simpl; [|done].
  repeat case_match; intros Hrun; try (by simplify_eq);
    apply bind_Ok in Hrun as (x & _ & Hrun);
    repeat case_match; by simplify_eq.
Qed.

Lemma process_item_drm vid live p data data' st item :
  pb_drmProtected data = pb_drmProtected data' →
  process_item vid live p data st item = process_item vid live p data' st item.
Proof. intros Hdrm. unfold process_item. by rewrite Hdrm. Qed.

Lemma format_urls_after_seen vid p urls item :
  truthy (get item "url") && py_in (get item "url") urls = true →
  format_urls_after vid p urls item = urls.
Proof.
  intros [Ht Hin]%andb_true_iff. unfold format_urls_after.
  by rewrite Ht, Hin.
Qed.

Lemma format_urls_after_mono vid p urls item v :
  py_in v urls = true → py_in v (format_urls_after vid p urls item) = true.
Proof.
  intros Hv. unfold format_urls_after. repeat case_match; try done.
  by rewrite py_in_app, Hv.
Qed.

Lemma format_urls_after_accepted vid p urls item :
  accepted vid p item = true →
  py_in (get item "url") (format_urls_after vid p urls item) = true.
Proof.
  unfold accepted, format_urls_after. intros [Ht Hvalid]%andb_true_iff.
  rewrite Ht. simpl.
  destruct (py_in (get item "url") urls) eqn:Hin; [done|].
  destruct (_is_valid_url _ _ _) as [[|]|e]; try done.
  rewrite py_in_app, Hin. simpl. by rewrite py_eq_refl.
Qed.

(** The item loop does on all items what it does on the new ones. *)
Lemma for_each_new_items vid live p data items :
  ∀ formats urls,
    for_each (process_item vid live p data) (formats, urls) items
    = for_each (process_item vid live p data) (formats, urls)
        (new_items vid p urls items).
Proof.
  induction items as [|item items IH]; intros formats urls; [done|].
  cbn [new_items]. rewrite for_each_cons.
  destruct (truthy (get item "url") && py_in (get item "url") urls) eqn:Hseen.
  - rewrite process_item_seen, bind_Ok_l by done. apply IH.
  - rewrite for_each_cons.
    destruct (process_item vid live p data (formats, urls) item)
      as [[formats' urls']|e] eqn:Hstep; [|done].
    rewrite !bind_Ok_l. apply process_item_urls in Hstep as ->. apply IH.
Qed.

Lemma for_each_items_urls vid live p data items :
  ∀ formats urls formats' urls',
    for_each (process_item vid live p data) (formats, urls) items
      = Ok (formats', urls') →
    urls' = foldl (format_urls_after vid p) urls items.
Proof.
  induction items as [|item items IH]; intros formats urls formats' urls' Hrun.
  - by injection Hrun as _ <-.
  - rewrite for_each_cons in Hrun.
    apply bind_Ok in Hrun as ([formats1 urls1] & Hstep & Hrun).
    apply process_item_urls in Hstep as ->. simpl. eauto.
Qed.

Lemma foldl_format_urls_after_new vid p seen items :
  foldl (format_urls_after vid p) seen (new_items vid p seen items)
  = foldl (format_urls_after vid p) seen items.
Proof.
  revert seen. induction items as [|item items IH]; intros seen; [done|].
  cbn [new_items foldl].
  destruct (truthy (get item "url") && py_in (get item "url") seen) eqn:Hseen.
  - by rewrite IH, format_urls_after_seen.
  - cbn [foldl]. apply IH.
Qed.

Lemma new_items_not_seen vid p seen items item :
  item ∈ new_items vid p seen items →
  truthy (get item "url") && py_in (get item "url") seen = false.
Proof.
  revert seen. induction items as [|x items IH]; intros seen Hin.
  - by apply elem_of_nil in Hin.
  - cbn [new_items] in Hin.
    destruct (truthy (get x "url") && py_in (get x "url") seen) eqn:Hx; [eauto|].
    apply elem_of_cons in Hin as [->|Hin]; [done|].
    apply IH in Hin.
    destruct (truthy (get item "url")); [|done]. simpl in *.
    destruct (py_in (get item "url") seen) eqn:Hc; [|done].
    by rewrite format_urls_after_mono in Hin.
Qed.

Lemma new_items_distinct vid p seen items :
  distinct_urls vid p (new_items vid p seen items).
Proof.
  revert seen. induction items as [|x items IH]; intros seen.
  - intros i j a b _ Hi. simpl in Hi. by rewrite lookup_nil in Hi.
  - cbn [new_items].
    destruct (truthy (get x "url") && py_in (get x "url") seen) eqn:Hx;
      [apply IH|].
    intros i j a b Hij Hi Hj Ha.
    destruct j as [|j]; [lia|]. simpl in Hj.
    destruct i as [|i]; simpl in Hi.
    + injection Hi as ->.
      apply list_elem_of_lookup_2, new_items_not_seen in Hj.
      destruct (py_eq (get b "url") (get a "url")) eqn:Heq; [|done].
      pose proof (format_urls_after_accepted vid p seen a Ha) as Hin.
      apply andb_true_iff in Ha as [Ht _].
      by rewrite (py_in_py_eq _ _ _ Heq Hin), (py_eq_truthy _ _ Heq), Ht in Hj.
    + apply (IH (format_urls_after vid p seen x) i j a b); [lia|done..].
Qed.

Lemma for_each_ext {S A} (body body' : S → A → result S) l :
  (∀ st x, body st x = body' st x) →
  ∀ st, for_each body st l = for_each body' st l.
Proof.
  intros Hext. induction l as [|x l IH]; intros st; [done|].
  rewrite !for_each_cons, Hext. by destruct (body' st x); [apply IH|].
Qed.

(** The item loop of one protocol, on a playback document and on the
    document without the items seen before. *)
Lemma items_first_seen vid live p data formats urls :
  let data' := without_seen vid p urls data in
  for_each (process_item vid live p data') (formats, urls) (_get_data_items data')
  = for_each (process_item vid live p data) (formats, urls) (_get_data_items data).
Proof.
  intros data'.
  change (_get_data_items data')
    with (new_items vid p urls (_get_data_items data)).
  rewrite (for_each_new_items vid live p data (_get_data_items data)).
  apply for_each_ext. intros st x. by apply process_item_drm.
Qed.

Lemma seen_upto_HLS playback_json vid :
  seen_upto playback_json vid "HLS" [] _PROTOCOLS = [].
Proof. done. Qed.

Lemma seen_upto_DASH playback_json vid :
  seen_upto playback_json vid "DASH" [] _PROTOCOLS
  = foldl (format_urls_after vid "HLS") [] (items_of (playback_json "HLS")).
Proof. done. Qed.

Lemma process_protocol_first_seen playback_json vid live formats urls d d' p :
  seen_upto playback_json vid p [] _PROTOCOLS = urls →
  process_protocol (first_seen_playback playback_json vid) vid live
    (formats, urls, d') p
  = (process_protocol playback_json vid live (formats, urls, d) p
     ≫= λ st : list dict * list value * option playback,
          Ok (st.1.1, st.1.2, without_seen vid p urls <$> st.2)).
Proof.
  intros Hseen. unfold process_protocol, first_seen_playback. rewrite Hseen.
  destruct (playback_json p) as [data|e]; [|done].
  rewrite !bind_Ok_l, items_first_seen.
  by destruct (for_each (process_item vid live p data) (formats, urls)
                 (_get_data_items data)) as [[formats' urls']|e].
Qed.

Lemma process_protocol_urls playback_json vid live formats urls d p
    formats' urls' d' :
  process_protocol playback_json vid live (formats, urls, d) p
    = Ok (formats', urls', d') →
  urls' = foldl (format_urls_after vid p) urls (items_of (playback_json p)).
Proof.
  unfold process_protocol.
  destruct (playback_json p) as [data|e]; [|done].
  rewrite bind_Ok_l. intros ([formats1 urls1] & Hitems & [= _ <- _])%bind_Ok.
  by apply for_each_items_urls in Hitems.
Qed.

Lemma real_extract_formats_first_seen playback_json vid live :
  real_extract_formats playback_json vid live
  = real_extract_formats (first_seen_playback playback_json vid) vid live.
Proof.
  unfold real_extract_formats, _PROTOCOLS. rewrite !for_each_cons.
  cbn [for_each].
  rewrite (process_protocol_first_seen playback_json vid live [] [] None None "HLS")
    by done.
  destruct (process_protocol playback_json vid live ([], [], None) "HLS")
    as [[[formats urls] hls]|e] eqn:Hhls; [|done].
  rewrite !bind_Ok_l.
  apply process_protocol_urls in Hhls.
  rewrite (process_protocol_first_seen playback_json vid live formats urls
             hls (without_seen vid "HLS" [] <$> hls) "DASH")
    by (by rewrite Hhls).
  destruct (process_protocol playback_json vid live (formats, urls, hls) "DASH")
    as [[[formats' urls'] dash]|e]; [|done].
  rewrite !bind_Ok_l. by destruct dash.
Qed.

Lemma first_seen_playback_distinct playback_json vid p data :
  first_seen_playback playback_json vid p = Ok data →
  distinct_urls vid p (_get_data_items data).
Proof.
  unfold first_seen_playback. intros (d & _ & [= <-])%bind_Ok.
  apply new_items_distinct.
Qed.

End tv2_first_seen.

(** ** De-duplication by source link *)

(** C1, for the link a record comes from. A pass de-duplicates by the
    [href] of the connections ([_process_media_selector]) and by the [url]
    of the playback items ([_real_extract]): it gives what it gives, records
    or error, on the input without every connection of a video or audio
    media whose [href] an earlier connection has put in [urls], and without
    every item whose [url] is that of an earlier item that passed the URL
    check. So a later duplicate adds nothing and raises nothing, and the
    records of the first-seen link are the ones kept. In the input that
    remains no connection has the non-empty [href] of an earlier one, and
    no item of a protocol has the [url] of an earlier accepted one. *)
Theorem duplicate_links_dropped :
  (∀ (E : BBC.Extractor) (selection : media_selection) (programme_id : value),
     BBC._process_media_selector selection programme_id
       = BBC._process_media_selector (first_seen selection) programme_id ∧
     distinct_hrefs
       (visited_connections (or_nil (ms_media (first_seen selection))))) ∧
  (∀ (E : TV2.Extractor) (playback_json : string → result playback)
     (video_id : value) (is_live : bool),
     TV2.real_extract_formats playback_json video_id is_live
       = TV2.real_extract_formats (first_seen_playback playback_json video_id)
           video_id is_live ∧
     ∀ (protocol : string) (data : playback),
       first_seen_playback playback_json video_id protocol = Ok data →
       distinct_urls video_id protocol (TV2._get_data_items data)).
Proof.
  split.
  - intros E selection programme_id. split.
    + apply process_media_selector_first_seen.
    + unfold first_seen. simpl.
      destruct (ms_media selection) as [medias|]; simpl.
      * rewrite visited_first_seen_medias. apply new_connections_distinct.
      * intros i j a b _ Hi. by rewrite lookup_nil in Hi.
  - intros E playback_json video_id is_live. split.
    + apply real_extract_formats_first_seen.
    + apply first_seen_playback_distinct.
Qed.

(** The same direct link under two names: the pass is the pass on the
    document with the first connection alone, and keeps its record. *)
Lemma duplicate_links_dropped_witness :
  first_seen Runs.same_href_twice = Runs.one_video ∧
  BBC._process_media_selector (H:=Runs.offline) Runs.same_href_twice
    (VStr "b039d07m")
  = BBC._process_media_selector (H:=Runs.offline)
      (first_seen Runs.same_href_twice) (VStr "b039d07m") ∧
  BBC._process_media_selector (H:=Runs.offline) Runs.same_href_twice
    (VStr "b039d07m") = Ok ([Runs.http_format], None).
Proof.
  split; [reflexivity|]. split; [|reflexivity].
  apply (proj1 duplicate_links_dropped Runs.offline).
Defined.

(** * More on the media selector *)

Section bbc_connection_more.

Import BBC.
Context `{Extractor}.

(** X1. The attributes of the media (kind, bitrate, encoding, width,
    height, file size) play no part for an ASX playlist or a DASH, HLS or
    HDS manifest: the connection gives the same records, or the same error,
    whatever they are. *)
Theorem expanded_connection_ignores_media (connection : dict)
    pid kind br enc w h fs kind' br' enc' w' h' fs' st :
  expanded_connection connection = true →
  process_connection pid kind br enc w h fs st connection
  = process_connection pid kind' br' enc' w' h' fs' st connection.
Proof.
  unfold expanded_connection, process_connection. destruct st as [formats urls].
  destruct (py_in (get connection "href") urls); [done|].
  destruct (py_eq (get connection "supplier") (VStr "asx")); [done|].
  simpl. intros Hmanifest.
  destruct (py_eq (get connection "transferFormat") (VStr "dash")); [done|].
  destruct (py_eq (get connection "transferFormat") (VStr "hls")); [done|].
  destruct (py_eq (get connection "transferFormat") (VStr "hds")); done.
Qed.

(** X2. A new direct link (protocol [http] or [https]) adds one record with
    the [href] as [url] and the file size of the media. For a video the
    record has the bitrate as [tbr] and the encoding as [vcodec], and no
    audio entries; for any other kind it has the bitrate as [abr], the
    encoding as [acodec] and [none] as [vcodec], and no [tbr], [width] or
    [height]. *)
Theorem direct_link_record pid kind br enc w h fs formats urls
    (connection : dict) (format_id : value) :
  plain_branch urls connection = true →
  py_in (get connection "protocol") [VStr "http"; VStr "https"] = true →
  suffixed_format_id connection br = Ok format_id →
  ∃ fmt : dict,
    process_connection pid kind br enc w h fs (formats, urls) connection
      = Ok (formats ++ [fmt], urls_after urls connection) ∧
    fmt !! "url" = Some (get connection "href") ∧
    fmt !! "format_id" = Some format_id ∧
    fmt !! "filesize" = Some (of_int fs) ∧
    if py_eq kind (VStr "video")
    then fmt !! "tbr" = Some (of_int br) ∧ fmt !! "vcodec" = Some enc ∧
         fmt !! "width" = Some (of_int w) ∧ fmt !! "height" = Some (of_int h) ∧
         fmt !! "abr" = None ∧ fmt !! "acodec" = None
    else fmt !! "abr" = Some (of_int br) ∧ fmt !! "acodec" = Some enc ∧
         fmt !! "vcodec" = Some (VStr "none") ∧
         fmt !! "tbr" = None ∧ fmt !! "width" = None ∧ fmt !! "height" = None.
Proof.
  intros Hplain Hprotocol Hid.
  rewrite process_connection_plain by done.
  unfold plain_format. rewrite Hid, bind_Ok_l, Hprotocol.
  eexists. split; [done|].
  unfold update, media_format.
  destruct (py_eq kind (VStr "video")); unfold update;
    repeat split; by simplify_map_eq.
Qed.

End bbc_connection_more.

Lemma py_in_falsy v urls :
  truthy v = false → Forall (λ u, truthy u = true) urls → py_in v urls = false.
Proof.
  intros Hv Hall. induction Hall as [|u urls Hu _ IH]; [done|].
  simpl. rewrite IH, orb_false_r.
  destruct (py_eq v u) eqn:Heq; [|done].
  apply py_eq_truthy in Heq. congruence.
Qed.

Section bbc_pass_more.

Import BBC.
Context `{Extractor}.

(** X3. Connections without [href] are never taken for duplicates: RTMP
    connections without [href] (no ASX playlist, no manifest, kind a string
    or missing) give one record each, whatever their server, application
    and token, and leave [urls] as it is. *)
Theorem connections_without_href_all_kept pid (m : media)
    (connections : list dict) (formats : list dict) (urls : list value) :
  Forall (λ u, truthy u = true) urls →
  Forall (λ c, rtmp_without_href c = true) connections →
  ∃ records : list dict,
    process_connections pid m (formats, urls) connections
      = Ok (formats ++ records, urls) ∧
    length records = length connections.
Proof.
  intros Hurls Hall. revert formats.
  induction Hall as [|c cs Hc _ IH]; intros formats.
  - exists []. by rewrite app_nil_r.
  - unfold rtmp_without_href, expanded_connection in Hc.
    rewrite !andb_true_iff, !negb_true_iff, orb_false_iff in Hc.
    destruct Hc as [[[Hhref [Hasx Hmanifest]] Hrtmp] Hkind].
    apply py_eq_str in Hrtmp.
    assert (plain_branch urls c = true) as Hplain.
    { unfold plain_branch. by rewrite py_in_falsy, Hasx, Hmanifest. }
    assert (urls_after urls c = urls) as Hafter.
    { unfold urls_after. by rewrite py_in_falsy, Hhref. }
    unfold process_connections in *. rewrite for_each_cons.
    rewrite process_connection_plain by done.
    edestruct plain_format_rtmp as [fid ->]; [done..|].
    rewrite !bind_Ok_l. cbn [from_option]. rewrite Hafter.
    edestruct IH as (records & -> & Hlen).
    eexists (_ :: records). split; [by rewrite <- app_assoc|].
    simpl. by rewrite Hlen.
Qed.

Lemma process_connection_extends pid kind br enc w h fs formats urls c
    formats' urls' :
  process_connection pid kind br enc w h fs (formats, urls) c
    = Ok (formats', urls') →
  formats `prefix_of` formats'.
Proof.
  unfold process_connection.
  destruct (py_in (get c "href") urls); [by intros [= <- _]|].
  repeat case_match; intros Hrun;
    apply bind_Ok in Hrun as (x & _ & Hrun);
    repeat case_match; simplify_eq; try done; by apply prefix_app_r.
Qed.

Lemma process_media_extends pid formats subtitles urls m formats' subtitles' urls' :
  process_media pid (formats, subtitles, urls) m
    = Ok (formats', subtitles', urls') →
  formats `prefix_of` formats'.
Proof.
  destruct (is_video_or_audio m) eqn:Hkind.
  - rewrite process_media_video by done.
    intros ([formats1 urls1] & Hrun & [= <- _ _])%bind_Ok.
    unfold process_connections in Hrun.
    revert formats urls Hrun.
    induction (_extract_connections m) as [|c cs IH]; intros formats urls Hrun.
    + by injection Hrun as <- _.
    + rewrite for_each_cons in Hrun.
      apply bind_Ok in Hrun as ([formats2 urls2] & Hstep & Hrun).
      apply process_connection_extends in Hstep. apply IH in Hrun.
      by etrans.
  - rewrite process_media_other by done.
    destruct (py_eq _ _).
    + by intros (s & _ & [= <- _ _])%bind_Ok.
    + by intros [= <- _ _].
Qed.

Lemma for_each_media_extends pid medias :
  ∀ formats subtitles urls formats' subtitles' urls',
    for_each (process_media pid) (formats, subtitles, urls) medias
      = Ok (formats', subtitles', urls') →
    formats `prefix_of` formats'.
Proof.
  induction medias as [|m ms IH];
    intros formats subtitles urls formats' subtitles' urls' Hrun.
  - by injection Hrun as <- _ _.
  - rewrite for_each_cons in Hrun.
    apply bind_Ok in Hrun as ([[formats1 subtitles1] urls1] & Hstep & Hrun).
    apply process_media_extends in Hstep. apply IH in Hrun. by etrans.
Qed.

(** X4. The pass only appends: if it succeeds on a document, it succeeds on
    the document cut after any of its media, and the records of the shorter
    document are the first records of the longer one, in the same order. *)
Theorem formats_of_prefix_kept (result : value) (l1 l2 : list media) pid
    (formats : list dict) (subtitles : option subtitle_dict) :
  _process_media_selector (MediaSelection result (Some (l1 ++ l2))) pid
    = Ok (formats, subtitles) →
  ∃ formats1 subtitles1,
    _process_media_selector (MediaSelection result (Some l1)) pid
      = Ok (formats1, subtitles1) ∧
    formats1 `prefix_of` formats.
Proof.
  unfold _process_media_selector, _extract_medias. simpl.
  destruct (truthy result); [done|]. rewrite !bind_Ok_l, for_each_app.
  intros ([[formats2 subtitles2] urls2] & Hrun & [= <- <-])%bind_Ok.
  apply bind_Ok in Hrun as ([[formats1 subtitles1] urls1] & Hl1 & Hl2).
  rewrite Hl1. exists formats1, subtitles1. split; [done|].
  by apply for_each_media_extends in Hl2.
Qed.

(** X5. A media that is neither video, audio nor captions is ignored:
    the pass gives the same result without it. *)
Theorem other_media_ignored (result : value) (l1 l2 : list media) (m : media)
    pid :
  is_video_or_audio m = false →
  py_eq (get (media_attrs m) "kind") (VStr "captions") = false →
  _process_media_selector (MediaSelection result (Some (l1 ++ m :: l2))) pid
  = _process_media_selector (MediaSelection result (Some (l1 ++ l2))) pid.
Proof.
  intros Hkind Hcaptions.
  unfold _process_media_selector, _extract_medias. simpl.
  destruct (truthy result); [done|]. rewrite !bind_Ok_l, !for_each_app.
  destruct (for_each (process_media pid) ([], None, []) l1)
    as [[[formats subtitles] urls]|e]; [|done].
  rewrite !bind_Ok_l, for_each_cons, process_media_other by done.
  by rewrite Hcaptions.
Qed.

Lemma for_each_media_subtitles pid medias :
  ∀ formats subtitles urls formats' subtitles' urls',
    for_each (process_media pid) (formats, subtitles, urls) medias
      = Ok (formats', subtitles', urls') →
    match last_captions medias with
    | Some m => ∃ sub, extract_subtitles m pid = Ok sub ∧ subtitles' = Some sub
    | None => subtitles' = subtitles
    end.
Proof.
  induction medias as [|m ms IH];
    intros formats subtitles urls formats' subtitles' urls' Hrun.
  - by injection Hrun as _ <- _.
  - rewrite for_each_cons in Hrun.
    apply bind_Ok in Hrun as ([[formats1 subtitles1] urls1] & Hstep & Hrun).
    apply IH in Hrun. cbn [last_captions].
    destruct (last_captions ms) as [m'|]; [done|]. subst subtitles'.
    unfold is_captions.
    destruct (is_video_or_audio m) eqn:Hkind; simpl.
    + rewrite process_media_video in Hstep by done.
      by apply bind_Ok in Hstep as ([formats2 urls2] & _ & [= _ <- _]).
    + rewrite process_media_other in Hstep by done.
      destruct (py_eq _ _).
      * apply bind_Ok in Hstep as (sub & Hsub & [= _ <- _]). eauto.
      * by injection Hstep as _ <- _.
Qed.

(** X6. The subtitles of a pass are those of the last captions media of
    the document, and [None] if the document has no captions media. *)
Theorem subtitles_of_last_captions (selection : media_selection) pid
    (formats : list dict) (subtitles : option subtitle_dict) :
  _process_media_selector selection pid = Ok (formats, subtitles) →
  match last_captions (or_nil (ms_media selection)) with
  | Some m => ∃ sub, extract_subtitles m pid = Ok sub ∧ subtitles = Some sub
  | None => subtitles = None
  end.
Proof.
  unfold _process_media_selector, _extract_medias.
  destruct (truthy (ms_result selection)); [done|]. rewrite bind_Ok_l.
  intros ([[formats1 subtitles1] urls1] & Hrun & [= _ <-])%bind_Ok.
  by apply for_each_media_subtitles in Hrun.
Qed.

End bbc_pass_more.

(** * More on the media sets *)

Section bbc_media_sets_more.

Import BBC.
Context `{Extractor}.

(** X7. When every failing media set fails with a recoverable error, the
    result is known exactly: with formats or subtitles accumulated they are
    returned, with one warning for the last failure unless it is
    [selectionunavailable] (or there is none); with nothing accumulated the
    last failure is raised as an extraction error, and without any failure
    the empty result is returned. *)
Theorem download_media_selector_result (programme_id : value) :
  only_recoverable programme_id = true →
  _download_media_selector programme_id =
    if bool_decide (yielded_formats programme_id ≠ [])
       || bool_decide (yielded_subtitles programme_id ≠ ∅)
    then Ok (yielded_formats programme_id, yielded_subtitles programme_id,
             warnings_for (last_failure programme_id))
    else match last_failure programme_id with
         | Some id => Raise (ExtractorError (returned_error id) NoExc NoExc)
         | None => Ok ([], ∅, [])
         end.
Proof.
  intros Hall. unfold _download_media_selector.
  rewrite download_media_sets_run by done. rewrite bind_Ok_l. simpl.
  fold (yielded_formats programme_id) (yielded_subtitles programme_id)
       (last_failure programme_id).
  destruct (last_failure programme_id) as [id|]; simpl.
  - destruct (bool_decide _ || bool_decide _); [|done].
    by destruct (py_eq id (VStr "selectionunavailable")).
  - destruct (bool_decide (yielded_formats programme_id ≠ [])) eqn:Hf;
      [done|].
    destruct (bool_decide (yielded_subtitles programme_id ≠ ∅)) eqn:Hs;
      [done|].
    apply bool_decide_eq_false in Hf, Hs.
    destruct (decide (yielded_formats programme_id = [])) as [->|]; [|done].
    by destruct (decide (yielded_subtitles programme_id = ∅)) as [->|].
Qed.

Lemma download_media_set_raise pid media_set e st :
  _download_media_selector_url media_set pid = Raise e →
  answers_or_recoverable pid media_set = false →
  download_media_set pid st media_set = Raise (raised_for e).
Proof.
  intros Hraise Hother. destruct st as [[last_exception formats] subtitles].
  unfold download_media_set, answers_or_recoverable in *. rewrite Hraise in *.
  destruct e as [id| | | |]; try done. by rewrite Hother.
Qed.

Lemma download_media_sets_raise pid before media_set after e st :
  forallb (answers_or_recoverable pid) before = true →
  _download_media_selector_url media_set pid = Raise e →
  answers_or_recoverable pid media_set = false →
  for_each (download_media_set pid) st (before ++ media_set :: after)
  = Raise (raised_for e).
Proof.
  intros Hbefore Hraise Hother. destruct st as [[last_exception formats] subtitles].
  rewrite for_each_app.
  rewrite (download_media_sets_run pid before) by done.
  rewrite bind_Ok_l, for_each_cons.
  by rewrite (download_media_set_raise pid media_set e).
Qed.

(** X8. The first media set that fails with another error ends the
    extraction: a [MediaSelectionError] with an id other than the three
    recoverable ones is raised as an extraction error naming that id, any
    other exception is raised as it is; the media sets after it are not
    asked, and what the media sets before it yielded is dropped. *)
Theorem first_other_error_raised (programme_id : value)
    (before after : list string) (media_set : string) (e : exn) :
  _MEDIA_SETS = before ++ media_set :: after →
  forallb (answers_or_recoverable programme_id) before = true →
  _download_media_selector_url media_set programme_id = Raise e →
  answers_or_recoverable programme_id media_set = false →
  _download_media_selector programme_id = Raise (raised_for e).
Proof.
  intros Hsets Hbefore Hraise Hother. unfold _download_media_selector.
  rewrite Hsets. by erewrite download_media_sets_raise.
Qed.

(** X9. De-duplication does not span media sets: when two media sets give
    the same records, every record is returned twice. *)
Theorem media_sets_not_deduplicated (programme_id : value) (a b : string)
    (fmts : list dict) (sttls sttls' : option subtitle_dict) :
  _MEDIA_SETS = [a; b] →
  _download_media_selector_url a programme_id = Ok (fmts, sttls) →
  _download_media_selector_url b programme_id = Ok (fmts, sttls') →
  ∃ subtitles,
    _download_media_selector programme_id = Ok (fmts ++ fmts, subtitles, []).
Proof.
  intros Hsets Ha Hb. unfold _download_media_selector. rewrite Hsets.
  rewrite download_media_sets_run by (simpl; by rewrite Ha, Hb).
  rewrite bind_Ok_l.
  unfold last_failure_of, yielded_formats_of, yielded_subtitles_of. simpl.
  rewrite Ha, Hb. simpl. rewrite app_nil_r. by eexists.
Qed.

End bbc_media_sets_more.

(** * More on the playlist *)

Section bbc_playlist_more.

Import BBC.
Context `{Extractor}.

Lemma process_version_formats st version st' :
  process_version st version = Ok st' →
  pl_formats st' = pl_formats st ++ version_formats version.
Proof.
  unfold process_version, version_formats, version_item.
  destruct (v_smpConfig version) as [cfg|]; simpl;
    [|intros [= <-]; by rewrite app_nil_r].
  destruct (truthy (smp_title cfg)); simpl;
    [|intros [= <-]; by rewrite app_nil_r].
  destruct (_get_programme_from_playlist_data (smp_items cfg)) as [item|];
    [|intros [= <-]; by rewrite app_nil_r].
  destruct (_download_media_selector (get item "vpid"))
    as [[[formats subtitles] warnings]|e]; [|done].
  by intros [= <-].
Qed.

Lemma for_each_version_formats versions :
  ∀ st st',
    for_each process_version st versions = Ok st' →
    pl_formats st' = pl_formats st ++ (versions ≫= version_formats).
Proof.
  induction versions as [|v vs IH]; intros st st' Hrun.
  - injection Hrun as <-. by rewrite app_nil_r.
  - rewrite for_each_cons in Hrun.
    apply bind_Ok in Hrun as (st1 & Hstep & Hrun).
    apply process_version_formats in Hstep. apply IH in Hrun.
    by rewrite Hrun, Hstep, bind_cons, app_assoc.
Qed.

(** X10. What [_download_playlist] returns is either the state of the loop
    over the versions of the playlist document, whose formats are then the
    records of the versions one after the other and not empty, or what the
    legacy playlist gives. Versions without [smpConfig], title or programme
    item have no records. *)
Theorem playlist_formats (playlist_id : value) (versions : list version)
    (r : playlist_info) :
  _download_playlist_json playlist_id = Ok versions →
  _download_playlist playlist_id = Ok r →
  (for_each process_version playlist_init versions = Ok r ∧
   pl_formats r = versions ≫= version_formats ∧
   pl_formats r ≠ []) ∨
  _process_legacy_playlist playlist_id = Ok r.
Proof.
  intros Hjson. unfold _download_playlist. rewrite Hjson, bind_Ok_l.
  destruct (for_each process_version playlist_init versions)
    as [st|e] eqn:Hrun.
  - destruct (bool_decide (pl_formats st ≠ [])) eqn:Hformats; [|by right].
    intros [= <-]. left. apply bool_decide_eq_true in Hformats.
    split; [done|]. split; [|done].
    by apply for_each_version_formats in Hrun.
  - destruct e as [|msg exc [|code|]| | |]; try done.
    destruct (code =? 404); [by right | done].
Qed.

(** X11. The records of a version get the types of the version, joined by
    a comma and a space, as [format_note] ([unknown] for a version without
    types). Unless a type mentions [AudioDescribed], nothing else in the
    records is touched. *)
Theorem version_records_annotated (st : playlist_info) (version : version)
    (item : dict) (selector_formats : list dict) version_subtitles warnings :
  version_item version = Some item →
  _download_media_selector (get item "vpid")
    = Ok (selector_formats, version_subtitles, warnings) →
  let types := default ["unknown"] (v_types version) in
  ∃ (st' : playlist_info) (annotated : list dict),
    process_version st version = Ok st' ∧
    pl_formats st' = pl_formats st ++ annotated ∧
    length annotated = length selector_formats ∧
    ∀ (i : nat) (f : dict),
      selector_formats !! i = Some f →
      ∃ f' : dict,
        annotated !! i = Some f' ∧
        f' !! "format_note" = Some (VStr (String.concat ", " types)) ∧
        (audio_described types = false →
         ∀ k, k ≠ "format_note" → f' !! k = f !! k).
Proof.
  intros Hitem Hrun types.
  unfold version_item in Hitem.
  destruct (v_smpConfig version) as [cfg|] eqn:Hcfg; [|done]. simpl in Hitem.
  destruct (truthy (smp_title cfg)) eqn:Htitle; [|done].
  unfold process_version. rewrite Hcfg, Htitle, Hitem, Hrun. simpl.
  eexists _, (annotate_format types <$> selector_formats).
  split; [done|]. split; [done|]. split; [by rewrite length_fmap|].
  intros i f Hi. eexists. rewrite list_lookup_fmap, Hi. split; [done|].
  unfold annotate_format. split.
  - destruct (audio_described types); by simplify_map_eq.
  - intros ->. intros k Hk. by rewrite lookup_insert_ne.
Qed.

End bbc_playlist_more.

(** * The ranked format list *)

Lemma unknown_lowest_irrefl x : unknown_lowest x x = false.
Proof. destruct x; simpl; [apply Z.ltb_irrefl | done]. Qed.

Lemma unknown_lowest_cases x y :
  x = y ∨ unknown_lowest x y = true ∨ unknown_lowest y x = true.
Proof.
  destruct x as [x|], y as [y|]; simpl; auto.
  destruct (Z.lt_trichotomy x y) as [?|[->|?]]; auto;
    [right; left | right; right]; by apply Z.ltb_lt.
Qed.

Lemma unknown_lowest_trans x y z :
  unknown_lowest x y = true → unknown_lowest y z = true →
  unknown_lowest x z = true.
Proof.
  destruct x, y, z; simpl; try done. rewrite !Z.ltb_lt. lia.
Qed.

Lemma unknown_lowest_asym x y :
  unknown_lowest x y = true → unknown_lowest y x = false.
Proof.
  destruct x, y; simpl; try done. rewrite Z.ltb_lt, Z.ltb_ge. lia.
Qed.

Lemma key_lt_irrefl k : key_lt k k = false.
Proof.
  induction k as [|x k IH]; [done|]. simpl.
  by rewrite unknown_lowest_irrefl, IH, andb_false_r.
Qed.

Lemma key_lt_asym a b : key_lt a b = true → key_lt b a = false.
Proof.
  revert b. induction a as [|x a IH]; intros [|y b]; simpl; try done.
  intros [Hxy|[Heq Hlt]%andb_true_iff]%orb_true_iff.
  - rewrite (unknown_lowest_asym x y) by done. simpl.
    rewrite bool_decide_eq_false_2; [done|].
    intros ->. by rewrite unknown_lowest_irrefl in Hxy.
  - apply bool_decide_eq_true in Heq as ->.
    by rewrite unknown_lowest_irrefl, IH, andb_false_r.
Qed.

(** Between a key and a key below it, every key of the same length is above
    the lower one or below the upper one. *)
Lemma key_lt_between a b c :
  length b = length a → length c = length a →
  key_lt c a = true → key_lt b a = true ∨ key_lt c b = true.
Proof.
  revert b c. induction a as [|x a IH]; intros [|y b] [|z c]; simpl; try done.
  intros [= Hb] [= Hc].
  destruct (unknown_lowest_cases y x) as [->|[Hyx|Hxy]].
  - intros [Hzx|[Heq Hlt]%andb_true_iff]%orb_true_iff.
    + right. by rewrite Hzx.
    + apply bool_decide_eq_true in Heq as ->.
      rewrite unknown_lowest_irrefl, !bool_decide_eq_true_2 by done. simpl.
      by apply IH.
  - left. by rewrite Hyx.
  - intros [Hzx|[Heq Hlt]%andb_true_iff]%orb_true_iff.
    + right. by rewrite (unknown_lowest_trans z x y).
    + apply bool_decide_eq_true in Heq as ->. right. by rewrite Hxy.
Qed.

Section ranking_properties.

Variable container_preference : dict → Z.

Lemma ranks_below_irrefl f : ranks_below container_preference f f = false.
Proof. apply key_lt_irrefl. Qed.

Lemma ranks_below_asym f g :
  ranks_below container_preference f g = true →
  ranks_below container_preference g f = false.
Proof. apply key_lt_asym. Qed.

Lemma not_ranks_below_trans f g h :
  ranks_below container_preference g f = false →
  ranks_below container_preference h g = false →
  ranks_below container_preference h f = false.
Proof.
  intros Hgf Hhg. destruct (ranks_below container_preference h f) eqn:Hhf;
    [|done].
  apply (key_lt_between _ (ranking_key container_preference g)) in Hhf
    as [Hlt|Hlt]; [| |done..]; unfold ranks_below in *; congruence.
Qed.

(** A lower language preference decides between two records of the same
    quality rank. *)
Lemma language_weight_ranks_below f g :
  quality_rank f = quality_rank g →
  language_weight f < language_weight g →
  ranks_below container_preference f g = true.
Proof.
  intros Hq Hl. unfold ranks_below, ranking_key. cbn [key_lt unknown_lowest].
  rewrite Hq, Z.ltb_irrefl, bool_decide_eq_true_2 by done.
  apply Z.ltb_lt in Hl as ->. done.
Qed.

Lemma rank_insert_Permutation f ranked :
  rank_insert container_preference f ranked ≡ₚ f :: ranked.
Proof.
  induction ranked as [|g ranked IH]; [done|]. simpl.
  destruct (ranks_below container_preference g f); [|done].
  by rewrite IH, Permutation_swap.
Qed.

Lemma sort_formats_Permutation formats :
  _sort_formats container_preference formats ≡ₚ formats.
Proof.
  induction formats as [|f formats IH]; [done|]. simpl.
  by rewrite rank_insert_Permutation, IH.
Qed.

Lemma rank_insert_sorted f ranked :
  StronglySorted (λ a b, ranks_below container_preference b a = false) ranked →
  StronglySorted (λ a b, ranks_below container_preference b a = false)
    (rank_insert container_preference f ranked).
Proof.
  induction 1 as [|g ranked Hsorted IH Hall]; simpl.
  - by repeat constructor.
  - destruct (ranks_below container_preference g f) eqn:Hgf.
    + constructor; [done|].
      rewrite rank_insert_Permutation. constructor; [|done].
      by apply ranks_below_asym.
    + constructor; [by constructor|]. constructor; [done|].
      eapply Forall_impl; [done|]. simpl. intros h Hhg.
      by apply (not_ranks_below_trans _ g).
Qed.

Lemma sort_formats_sorted formats :
  StronglySorted (λ a b, ranks_below container_preference b a = false)
    (_sort_formats container_preference formats).
Proof.
  induction formats as [|f formats IH]; simpl;
    [constructor | by apply rank_insert_sorted].
Qed.

Lemma StronglySorted_lookup_lt {A} (R : relation A) l i j a b :
  StronglySorted R l → (i < j)%nat →
  l !! i = Some a → l !! j = Some b → R a b.
Proof.
  intros Hsorted. revert i j.
  induction Hsorted as [|x l _ IH Hall]; intros i j Hij Hi Hj; [done|].
  destruct j as [|j]; [lia|]. destruct i as [|i]; simpl in *.
  - injection Hi as ->. rewrite Forall_forall in Hall.
    apply Hall. by eapply list_elem_of_lookup_2.
  - apply (IH i j); [lia | done..].
Qed.

(** In the ranked list a record stands before every record it ranks
    below. *)
Lemma sort_formats_ranks_below formats i j f g :
  _sort_formats container_preference formats !! i = Some f →
  _sort_formats container_preference formats !! j = Some g →
  ranks_below container_preference f g = true →
  (i < j)%nat.
Proof.
  intros Hi Hj Hfg.
  destruct (decide (i < j)%nat) as [|Hge]; [done|].
  destruct (decide (i = j)) as [->|Hne].
  - rewrite Hi in Hj. injection Hj as ->.
    by rewrite ranks_below_irrefl in Hfg.
  - pose proof (StronglySorted_lookup_lt _ _ j i g f
                  (sort_formats_sorted formats)) as Hgf.
    rewrite Hgf in Hfg; [done | lia | done..].
Qed.

End ranking_properties.

Section bbc_ranked_playlist.

Import BBC.
Context `{Extractor}.

(** C6. When the loop over the versions of a playlist succeeds, every
    record of a version whose [types] include [AudioDescribed] is in the
    format list of the page, with [language_preference] set to -10 and, but
    for [format_note], as the media selector gave it. It is not left out of
    the ranked list, where it stands below (before) every record without
    language preference that has the same quality rank, whatever the
    resolution, the bitrate and the file size of the two. *)
Theorem audio_described_language_preference
    (container_preference : dict → Z) (playlist_id : value)
    (versions : list version) (st : playlist_info) (version : version)
    (item : dict) (types : list string) (selector_formats : list dict)
    (version_subtitles : subtitle_dict) (warnings : list string) (f : dict) :
  _download_playlist_json playlist_id = Ok versions →
  for_each process_version playlist_init versions = Ok st →
  version ∈ versions →
  version_item version = Some item →
  v_types version = Some types →
  "AudioDescribed" ∈ types →
  _download_media_selector (get item "vpid")
    = Ok (selector_formats, version_subtitles, warnings) →
  f ∈ selector_formats →
  ∃ (ranked : list dict) (f' : dict),
    ranked_playlist_formats container_preference playlist_id = Ok ranked ∧
    f' ∈ ranked ∧
    f' !! "language_preference" = Some (VInt (-10)) ∧
    (∀ k, k ≠ "language_preference" → k ≠ "format_note" → f' !! k = f !! k) ∧
    ∀ (b : dict) (i j : nat),
      b !! "language_preference" = None →
      quality_rank b = quality_rank f' →
      ranked !! i = Some f' → ranked !! j = Some b →
      (i < j)%nat.
Proof.
  intros Hjson Hloop Hversion Hitem Htypes Had Hrun Hf.
  assert (audio_described types = true) as Hany.
  { apply existsb_exists. exists "AudioDescribed".
    split; [by apply list_elem_of_In | apply str_in_refl]. }
  assert (annotate_format types f ∈ pl_formats st) as Hin.
  { rewrite (for_each_version_formats versions playlist_init st) by done.
    simpl. apply list_elem_of_bind. exists version. split; [|done].
    unfold version_formats. rewrite Hitem, Hrun, Htypes. simpl.
    by apply list_elem_of_fmap_2. }
  exists (_sort_formats container_preference (pl_formats st)),
         (annotate_format types f).
  assert (annotate_format types f !! "language_preference"
          = Some (VInt (-10))) as Hweight.
  { unfold annotate_format. rewrite Hany. by simplify_map_eq. }
  split; [|split; [|split; [|split]]].
  - unfold ranked_playlist_formats, _download_playlist.
    rewrite Hjson, bind_Ok_l, Hloop.
    rewrite bool_decide_eq_true_2; [done|].
    intros Hnil. rewrite Hnil in Hin. by apply elem_of_nil in Hin.
  - by rewrite sort_formats_Permutation.
  - done.
  - intros k Hk1 Hk2. unfold annotate_format. rewrite Hany.
    by rewrite !lookup_insert_ne.
  - intros b i j Hb Hquality Hi Hj.
    eapply sort_formats_ranks_below; [exact Hi | exact Hj |].
    apply language_weight_ranks_below; [done|].
    unfold language_weight, int_attr. by rewrite Hweight, Hb.
Qed.

End bbc_ranked_playlist.


Lemma audio_described_language_preference_witness :
  ∃ (ranked : list dict) (f' : dict),
    ranked_playlist_formats (H:=Runs.with_playlist)
      Runs.no_container_preference (VStr "m000b1v0") = Ok ranked ∧
    f' ∈ ranked ∧
    f' !! "language_preference" = Some (VInt (-10)) ∧
    (∀ k, k ≠ "language_preference" → k ≠ "format_note" →
          f' !! k = Runs.http_format !! k) ∧
    ∀ (b : dict) (i j : nat),
      b !! "language_preference" = None →
      quality_rank b = quality_rank f' →
      ranked !! i = Some f' → ranked !! j = Some b →
      (i < j)%nat.
Proof.
  eapply (audio_described_language_preference (H:=Runs.with_playlist)
            Runs.no_container_preference (VStr "m000b1v0")
            [Runs.untyped_version; Runs.audio_described_version] _
            Runs.audio_described_version
            {[ "kind" := VStr "programme"; "vpid" := VStr "p07ss5kj" ]}
            ["AudioDescribed"] [Runs.http_format] ∅ [] Runs.http_format);
    [ reflexivity | reflexivity
    | apply list_elem_of_further, list_elem_of_here
    | reflexivity | reflexivity | apply list_elem_of_here
    | reflexivity | apply list_elem_of_here ].
Defined.

(** The run of the witness: the record of the audio-described version is
    collected last and ranked first, below the record of the other
    version. *)
Example audio_described_ranked_run :
  BBC._download_playlist (H:=Runs.with_playlist) (VStr "m000b1v0")
  = Ok (PlaylistInfo (VStr "p07ss5kj")
          (VStr "His Dark Materials - Audio Described") VNone None
          [ <[ "format_note" := VStr "unknown" ]> Runs.http_format;
            <[ "language_preference" := VInt (-10) ]>
              (<[ "format_note" := VStr "AudioDescribed" ]> Runs.http_format) ]
          ∅ VNone []) ∧
  ranked_playlist_formats (H:=Runs.with_playlist)
    Runs.no_container_preference (VStr "m000b1v0")
  = Ok [ <[ "language_preference" := VInt (-10) ]>
           (<[ "format_note" := VStr "AudioDescribed" ]> Runs.http_format);
         <[ "format_note" := VStr "unknown" ]> Runs.http_format ].
Proof. split; reflexivity. Qed.


(** * More on [TV2IE._real_extract] *)

Section tv2_more.

Import TV2.
Context `{Extractor}.

Lemma process_protocol_raise playback_json vid live st p e :
  playback_json p = Raise e →
  process_protocol playback_json vid live st p = Raise e.
Proof.
  intros Hraise. destruct st as [[formats urls] data].
  unfold process_protocol. by rewrite Hraise.
Qed.

Lemma process_protocol_ok playback_json vid live formats urls d p data :
  playback_json p = Ok data →
  process_protocol playback_json vid live (formats, urls, d) p
  = ('(formats, urls) ←
       for_each (process_item vid live p data) (formats, urls)
                (_get_data_items data);
     Ok (formats, urls, Some data)).
Proof. intros Hdata. unfold process_protocol. by rewrite Hdata. Qed.

(** X12. There is no partial result: when the playback request for DASH
    fails, its error is the outcome of the extraction, and the formats
    collected for HLS are lost. *)
Theorem dash_failure_loses_hls_formats
    (playback_json : string → result playback) vid live
    (formats : list dict) (urls : list value) (data : option playback)
    (e : exn) :
  process_protocol playback_json vid live ([], [], None) "HLS"
    = Ok (formats, urls, data) →
  playback_json "DASH" = Raise e →
  real_extract_formats playback_json vid live = Raise e.
Proof.
  intros Hhls Hdash. unfold real_extract_formats, _PROTOCOLS.
  rewrite for_each_cons, Hhls, bind_Ok_l, for_each_cons.
  by rewrite (process_protocol_raise _ _ _ _ _ e).
Qed.

Lemma process_item_rejected vid live p data st item :
  rejected_item vid p item = true →
  process_item vid live p data st item = Ok st.
Proof.
  unfold rejected_item, process_item. destruct st as [formats urls].
  destruct (truthy (get item "url")); [|done]. simpl.
  destruct (py_in (get item "url") urls); [done|].
  destruct (_is_valid_url _ _ _) as [[|]|e]; done.
Qed.

(** X13. An item without [url], or whose [url] fails the URL check, adds
    nothing and is not remembered: the item loop gives the same result
    without it. *)
Theorem rejected_items_ignored vid live p data st
    (l1 l2 : list dict) (item : dict) :
  rejected_item vid p item = true →
  for_each (process_item vid live p data) st (l1 ++ item :: l2)
  = for_each (process_item vid live p data) st (l1 ++ l2).
Proof.
  intros Hrejected. rewrite !for_each_app.
  destruct (for_each (process_item vid live p data) st l1) as [st1|e]; [|done].
  by rewrite !bind_Ok_l, for_each_cons, process_item_rejected.
Qed.

Lemma for_each_m3u8_items_drm vid live p data items :
  truthy (pb_drmProtected data) = true →
  Forall (λ item, m3u8_item vid p item = true) items →
  ∀ formats urls, ∃ urls',
    for_each (process_item vid live p data) (formats, urls) items
    = Ok (formats, urls').
Proof.
  intros Hdrm Hall. induction Hall as [|item items Hitem _ IH];
    intros formats urls; [by eexists|].
  rewrite for_each_cons.
  assert (∃ urls1, process_item vid live p data (formats, urls) item
                   = Ok (formats, urls1)) as [urls1 ->].
  { unfold m3u8_item in Hitem. unfold process_item.
    destruct (truthy (get item "url")); [|by eexists]. simpl in *.
    destruct (py_in (get item "url") urls); [by eexists|].
    destruct (_is_valid_url _ _ _) as [[|]|e]; [|by eexists|done].
    destruct (determine_ext _) as [ext|e]; [|done].
    apply String.eqb_eq in Hitem as ->. simpl. rewrite Hdrm. by eexists. }
  rewrite bind_Ok_l. apply IH.
Qed.

(** X14. When every playback is DRM protected and lists only [m3u8]
    manifests (or items without [url]), no manifest is expanded and the
    extraction fails with [This video is DRM protected.]. *)
Theorem drm_protected_manifests
    (playback_json : string → result playback) vid live
    (hls dash : playback) :
  playback_json "HLS" = Ok hls →
  playback_json "DASH" = Ok dash →
  truthy (pb_drmProtected hls) = true →
  truthy (pb_drmProtected dash) = true →
  Forall (λ item, m3u8_item vid "HLS" item = true) (_get_data_items hls) →
  Forall (λ item, m3u8_item vid "DASH" item = true) (_get_data_items dash) →
  real_extract_formats playback_json vid live
  = Raise (ExtractorError "This video is DRM protected." NoExc NoExc).
Proof.
  intros Hhls Hdash Hdrm1 Hdrm2 Hitems1 Hitems2.
  unfold real_extract_formats, _PROTOCOLS.
  rewrite for_each_cons, (process_protocol_ok _ _ _ _ _ _ _ hls) by done.
  destruct (for_each_m3u8_items_drm vid live "HLS" hls _ Hdrm1 Hitems1 [] [])
    as [urls1 ->].
  rewrite !bind_Ok_l, for_each_cons.
  rewrite (process_protocol_ok _ _ _ _ _ _ _ dash) by done.
  destruct (for_each_m3u8_items_drm vid live "DASH" dash _ Hdrm2 Hitems2 [] urls1)
    as [urls2 ->].
  rewrite !bind_Ok_l. cbn [for_each]. rewrite bind_Ok_l. simpl.
  by rewrite Hdrm2.
Qed.

End tv2_more.

(** * The title and the version of an episode *)

(** X15. [make_title] never gives an empty title: what it returns is
    [None] or a value Python counts as true. *)
Theorem make_title_none_or_nonempty (title title2 v : value) :
  make_title title title2 = Ok v → v = VNone ∨ truthy v = true.
Proof.
  unfold make_title, py_or.
  destruct (truthy title) eqn:Htitle, (truthy title2) eqn:Htitle2; simpl.
  - destruct title2 as [| | |t2]; try done.
    destruct title as [| | |t]; try done. simpl. intros [= <-].
    right. simpl in *. destruct t; [done|]. done.
  - intros [= <-]. rewrite Htitle. cbn. rewrite Htitle. by right.
  - intros [= <-]. rewrite Htitle. cbn. rewrite Htitle2. by right.
  - intros [= <-]. rewrite Htitle. cbn. rewrite Htitle2. by left.
Qed.

(** X16. The title of an audio-described episode page with a non-empty
    title ends in [Audio Described]: it is [<title> - <subtitle> - Audio
    Described], and [<title> - Audio Described] when the episode has no
    subtitle. *)
Theorem audio_described_episode_title (episode : dict) (t : string) :
  get episode "currentVersion" = VStr "ad" →
  get episode "title" = VStr t →
  t ≠ "" →
  str_or_none (get episode "subtitle") = true →
  episode_title episode =
    Ok (VStr (match get episode "subtitle" with
              | VStr (String c s) =>
                  t +:+ " - " +:+ String c s +:+ " - " +:+ "Audio Described"
              | _ => t +:+ " - " +:+ "Audio Described"
              end)).
Proof.
  intros Hversion Htitle Ht Hsubtitle. unfold episode_title.
  rewrite Hversion, Htitle.
  destruct t as [|a t]; [done|].
  by destruct (get episode "subtitle") as [| | |[|c s]].
Qed.


(** * The further properties on concrete runs *)

Lemma expanded_connection_ignores_media_witness :
  BBC.process_connection (H:=Runs.offline) (VStr "b039d07m") (VStr "video")
    (Some 320) (VStr "h264") (Some 1280) (Some 720) None ([], [])
    Runs.hls_connection
  = BBC.process_connection (H:=Runs.offline) (VStr "b039d07m") (VStr "audio")
      None VNone None None None ([], []) Runs.hls_connection.
Proof.
  apply (expanded_connection_ignores_media (H:=Runs.offline)). reflexivity.
Defined.

Lemma direct_link_record_witness :
  ∃ fmt : dict,
    BBC.process_connection (H:=Runs.offline) (VStr "b039d07m") (VStr "audio")
      None (VStr "aac") None None (Some 1024) ([], []) Runs.http_connection
      = Ok ([] ++ [fmt], urls_after [] Runs.http_connection) ∧
    fmt !! "url" = Some (get Runs.http_connection "href") ∧
    fmt !! "format_id" = Some (VStr "akamai") ∧
    fmt !! "filesize" = Some (of_int (Some 1024)) ∧
    if py_eq (VStr "audio") (VStr "video")
    then fmt !! "tbr" = Some (of_int None) ∧ fmt !! "vcodec" = Some (VStr "aac") ∧
         fmt !! "width" = Some (of_int None) ∧
         fmt !! "height" = Some (of_int None) ∧
         fmt !! "abr" = None ∧ fmt !! "acodec" = None
    else fmt !! "abr" = Some (of_int None) ∧
         fmt !! "acodec" = Some (VStr "aac") ∧
         fmt !! "vcodec" = Some (VStr "none") ∧
         fmt !! "tbr" = None ∧ fmt !! "width" = None ∧ fmt !! "height" = None.
Proof.
  apply (direct_link_record (H:=Runs.offline)); reflexivity.
Defined.

Lemma connections_without_href_all_kept_witness :
  ∃ records : list dict,
    BBC.process_connections (H:=Runs.offline) (VStr "b039d07m")
      (Media {[ "kind" := VStr "video" ]} None) ([], []) Runs.three_streams
      = Ok ([] ++ records, []) ∧
    length records = length Runs.three_streams.
Proof.
  apply (connections_without_href_all_kept (H:=Runs.offline)).
  - apply Forall_nil_2.
  - repeat apply Forall_cons_2; try apply Forall_nil_2; reflexivity.
Defined.

Lemma formats_of_prefix_kept_witness :
  ∃ formats1 subtitles1,
    BBC._process_media_selector (H:=Runs.offline)
      (MediaSelection VNone
         (Some [Media {[ "kind" := VStr "video" ]}
                      (Some [Runs.rtmp_connection "akamai"])]))
      (VStr "b039d07m") = Ok (formats1, subtitles1) ∧
    formats1 `prefix_of` [Runs.rtmp_format "akamai"; Runs.http_format].
Proof.
  apply (formats_of_prefix_kept (H:=Runs.offline) VNone
           [Media {[ "kind" := VStr "video" ]}
                  (Some [Runs.rtmp_connection "akamai"])]
           [Media {[ "kind" := VStr "video" ]} (Some [Runs.http_connection])]
           (VStr "b039d07m") _ None).
  reflexivity.
Defined.

Lemma other_media_ignored_witness :
  BBC._process_media_selector (H:=Runs.offline)
    (MediaSelection VNone
       (Some ([Media {[ "kind" := VStr "video" ]} (Some [Runs.http_connection])]
              ++ Runs.thumbnail_media :: [Runs.captions_media])))
    (VStr "b039d07m")
  = BBC._process_media_selector (H:=Runs.offline)
      (MediaSelection VNone
         (Some ([Media {[ "kind" := VStr "video" ]} (Some [Runs.http_connection])]
                ++ [Runs.captions_media])))
      (VStr "b039d07m").
Proof.
  apply (other_media_ignored (H:=Runs.offline)); reflexivity.
Defined.

Lemma subtitles_of_last_captions_witness :
  match last_captions
          (or_nil (ms_media
             (MediaSelection VNone
                (Some [Runs.captions_media; Runs.thumbnail_media])))) with
  | Some m =>
      ∃ sub, BBC.extract_subtitles (Extractor:=Runs.offline) m (VStr "b039d07m")
             = Ok sub ∧ Some (∅ : subtitle_dict) = Some sub
  | None => Some (∅ : subtitle_dict) = None
  end.
Proof.
  apply (subtitles_of_last_captions (H:=Runs.offline)
           (MediaSelection VNone
              (Some [Runs.captions_media; Runs.thumbnail_media]))
           (VStr "b039d07m") []).
  reflexivity.
Defined.

Lemma download_media_selector_result_witness :
  BBC._download_media_selector (H:=Runs.with_playlist) (VStr "m000b1tz") =
    if bool_decide (yielded_formats (H:=Runs.with_playlist) (VStr "m000b1tz") ≠ [])
       || bool_decide
            (yielded_subtitles (H:=Runs.with_playlist) (VStr "m000b1tz") ≠ ∅)
    then Ok (yielded_formats (H:=Runs.with_playlist) (VStr "m000b1tz"),
             yielded_subtitles (H:=Runs.with_playlist) (VStr "m000b1tz"),
             warnings_for (H:=Runs.with_playlist)
               (last_failure (H:=Runs.with_playlist) (VStr "m000b1tz")))
    else match last_failure (H:=Runs.with_playlist) (VStr "m000b1tz") with
         | Some id =>
             Raise (ExtractorError
                      (BBC.returned_error (H:=Runs.with_playlist) id)
                      NoExc NoExc)
         | None => Ok ([], ∅, [])
         end.
Proof.
  apply (download_media_selector_result (H:=Runs.with_playlist)). reflexivity.
Defined.

(** The run of the witness: [iptv-all] answers [selectionunavailable], the
    video of [pc] is returned, and there is no warning. *)
Example selectionunavailable_run :
  BBC._download_media_selector (H:=Runs.with_playlist) (VStr "m000b1tz")
  = Ok ([Runs.http_format], ∅, []).
Proof. reflexivity. Qed.

Lemma first_other_error_raised_witness :
  BBC._download_media_selector (H:=Runs.pc_unauthorized) (VStr "b039d07m")
  = Raise (raised_for (H:=Runs.pc_unauthorized)
             (MediaSelectionError (VStr "authorization"))).
Proof.
  apply (first_other_error_raised (H:=Runs.pc_unauthorized) (VStr "b039d07m")
           ["iptv-all"] [] "pc"); reflexivity.
Defined.

Lemma media_sets_not_deduplicated_witness :
  ∃ subtitles,
    BBC._download_media_selector (H:=Runs.same_document) (VStr "b039d07m")
    = Ok ([Runs.http_format] ++ [Runs.http_format], subtitles, []).
Proof.
  apply (media_sets_not_deduplicated (H:=Runs.same_document) (VStr "b039d07m")
           "iptv-all" "pc" [Runs.http_format] None None);
    [reflexivity | reflexivity | reflexivity].
Defined.

Lemma playlist_formats_witness :
  ∃ r : playlist_info,
    BBC._download_playlist (H:=Runs.with_playlist) (VStr "m000b1v0") = Ok r ∧
    ((for_each (BBC.process_version (H:=Runs.with_playlist)) BBC.playlist_init
        [Runs.untyped_version; Runs.audio_described_version] = Ok r ∧
      pl_formats r
        = [Runs.untyped_version; Runs.audio_described_version]
            ≫= version_formats (H:=Runs.with_playlist) ∧
      pl_formats r ≠ []) ∨
     BBC._process_legacy_playlist (Extractor:=Runs.with_playlist)
       (VStr "m000b1v0") = Ok r).
Proof.
  destruct (BBC._download_playlist (H:=Runs.with_playlist) (VStr "m000b1v0"))
    as [r|e] eqn:Hrun; [|by vm_compute in Hrun].
  exists r. split; [done|].
  apply (playlist_formats (H:=Runs.with_playlist) (VStr "m000b1v0"));
    [reflexivity | exact Hrun].
Defined.

Lemma version_records_annotated_witness :
  ∃ (st' : playlist_info) (annotated : list dict),
    BBC.process_version (H:=Runs.with_playlist) BBC.playlist_init
      Runs.untyped_version = Ok st' ∧
    pl_formats st' = pl_formats BBC.playlist_init ++ annotated ∧
    length annotated = length [Runs.http_format] ∧
    ∀ (i : nat) (f : dict),
      [Runs.http_format] !! i = Some f →
      ∃ f' : dict,
        annotated !! i = Some f' ∧
        f' !! "format_note" = Some (VStr (String.concat ", " ["unknown"])) ∧
        (BBC.audio_described ["unknown"] = false →
         ∀ k, k ≠ "format_note" → f' !! k = f !! k).
Proof.
  apply (version_records_annotated (H:=Runs.with_playlist) BBC.playlist_init
           Runs.untyped_version
           {[ "kind" := VStr "programme"; "vpid" := VStr "m000b1tz" ]}
           [Runs.http_format] ∅ []);
    [reflexivity | reflexivity].
Defined.

Lemma dash_failure_loses_hls_formats_witness :
  TV2.real_extract_formats (H:=Runs.tv2) Runs.dash_request_fails
    (VStr "1787176") false
  = Raise (ExtractorError "Unable to download JSON metadata" OtherExc OtherExc).
Proof.
  apply (dash_failure_loses_hls_formats (H:=Runs.tv2) Runs.dash_request_fails
           (VStr "1787176") false
           [ {[ "url" := VStr "http://tv2/clip.mp4";
                "format_id" := VStr "hls-progressive";
                "tbr" := VNone; "filesize" := VNone ]} ]
           [VStr "http://tv2/clip.mp4"]
           (Some (Playback (Some [Runs.mp4_item]) VNone)));
    [reflexivity | reflexivity].
Defined.

Lemma rejected_items_ignored_witness :
  for_each (TV2.process_item (H:=Runs.tv2) (VStr "1787176") false "HLS"
              (Playback None VNone))
    ([], []) ([Runs.mp4_item] ++ Runs.gone_item :: [Runs.m3u8_manifest_item])
  = for_each (TV2.process_item (H:=Runs.tv2) (VStr "1787176") false "HLS"
                (Playback None VNone))
      ([], []) ([Runs.mp4_item] ++ [Runs.m3u8_manifest_item]).
Proof.
  apply (rejected_items_ignored (H:=Runs.tv2)). reflexivity.
Defined.

Lemma drm_protected_manifests_witness :
  TV2.real_extract_formats (H:=Runs.tv2) Runs.drm_playbacks (VStr "1787176")
    false
  = Raise (ExtractorError "This video is DRM protected." NoExc NoExc).
Proof.
  apply (drm_protected_manifests (H:=Runs.tv2) Runs.drm_playbacks
           (VStr "1787176") false
           (Playback (Some [Runs.m3u8_manifest_item]) (VBool true))
           (Playback (Some [Runs.m3u8_manifest_item]) (VBool true)));
    try reflexivity;
    (apply Forall_cons_2; [reflexivity | apply Forall_nil_2]).
Defined.

Lemma make_title_none_or_nonempty_witness :
  VStr "His Dark Materials - Series 1" = VNone ∨
  truthy (VStr "His Dark Materials - Series 1") = true.
Proof.
  apply (make_title_none_or_nonempty (VStr "His Dark Materials")
           (VStr "Series 1")).
  reflexivity.
Defined.

Lemma audio_described_episode_title_witness :
  episode_title Runs.ad_episode =
    Ok (VStr (match get Runs.ad_episode "subtitle" with
              | VStr (String c s) =>
                  "His Dark Materials" +:+ " - " +:+ String c s +:+ " - "
                  +:+ "Audio Described"
              | _ => "His Dark Materials" +:+ " - " +:+ "Audio Described"
              end)).
Proof.
  apply (audio_described_episode_title Runs.ad_episode "His Dark Materials");
    [reflexivity | reflexivity | discriminate | reflexivity].
Defined.

